(** * Adaptive-Code-Learning-Platform: skill tracking and session bookkeeping

    Shallow embedding of the PL/pgSQL functions of [supabase/schema.sql]
    ([get_or_create_user_skill], [update_user_difficulty]), of the table
    constraints they run under, and of the Next.js route handlers that call
    them ([generate-question], [check-answer], [sessions/start],
    [sessions/[id]/end]); of the reply handling of the question generator
    ([generation-service]), the prompt's difficulty description, the
    leaderboard ranking and the client store [useLearningStore]. *)

From Stdlib Require Import ZArith Bool List String Ascii Lia.
Import ListNotations.
Open Scope Z_scope.

(** Applying a fallible [f] to every element; [None] as soon as one
    application fails. *)
Fixpoint map_opt {A} (f : A -> option A) (l : list A) : option (list A) :=
  match l with
  | [] => Some []
  | x :: l' =>
      match f x, map_opt f l' with
      | Some y, Some l'' => Some (y :: l'')
      | _, _ => None
      end
  end.

(** ** SQL integers with NULL *)

Module Sql.

(** An SQL [INTEGER] value: [None] is NULL. *)
Definition int := option Z.

(** The mathematical sum and difference, strict in NULL; the [INTEGER]
    operations are [add4] and [sub4] below. *)
Definition add (a b : int) : int :=
  match a, b with Some x, Some y => Some (x + y) | _, _ => None end.

Definition sub (a b : int) : int :=
  match a, b with Some x, Some y => Some (x - y) | _, _ => None end.

(** [INTEGER] is int4. *)
Definition int4_min : Z := -2147483648.
Definition int4_max : Z := 2147483647.

Definition fits (a : int) : bool :=
  match a with Some x => (int4_min <=? x) && (x <=? int4_max) | None => true end.

(** int4 [a + b] and [a - b]: [None] is the error "integer out of range"
    raised when the result leaves int4. *)
Definition add4 (a b : int) : option int :=
  if fits (add a b) then Some (add a b) else None.

Definition sub4 (a b : int) : option int :=
  if fits (sub a b) then Some (sub a b) else None.

(** Comparisons yield a three-valued SQL boolean: [None] is NULL. *)
Definition cmp (f : Z -> Z -> bool) (a b : int) : option bool :=
  match a, b with Some x, Some y => Some (f x y) | _, _ => None end.

Definition ge := cmp Z.geb.
Definition gt := cmp Z.gtb.
Definition lt := cmp Z.ltb.

(** [CASE WHEN c1 THEN v1 WHEN c2 THEN v2 ... ELSE e END]: a branch is
    taken only when its condition is TRUE (not FALSE, not NULL). *)
Fixpoint case_when (ws : list (option bool * int)) (e : int) : int :=
  match ws with
  | [] => e
  | (Some true, v) :: _ => v
  | _ :: ws' => case_when ws' e
  end.

(** PostgreSQL's [LEAST] and [GREATEST] ignore NULL arguments; the result
    is NULL only when every argument is NULL. *)
Definition least (a b : int) : int :=
  match a, b with
  | Some x, Some y => Some (Z.min x y)
  | Some x, None => Some x
  | None, b => b
  end.

Definition greatest (a b : int) : int :=
  match a, b with
  | Some x, Some y => Some (Z.max x y)
  | Some x, None => Some x
  | None, b => b
  end.

(** A [CHECK] constraint rejects a row only when its condition is FALSE;
    TRUE and NULL both pass. *)
Definition check (c : option bool) : bool :=
  match c with Some false => false | _ => true end.

(** Conjunction of SQL booleans ([AND], three-valued). *)
Definition and3 (a b : option bool) : option bool :=
  match a, b with
  | Some false, _ | _, Some false => Some false
  | Some true, Some true => Some true
  | _, _ => None
  end.

(** [UPDATE t SET ... WHERE p]: every row satisfying [p] is rewritten by
    [f], which fails ([None]) when an expression of the [SET] list raises;
    the statement fails as a whole (no row changed) when [f] fails on a
    row or a rewritten row violates the table's constraint [ok]. *)
Definition update {R} (ok : R -> bool) (p : R -> bool) (f : R -> option R)
    (t : list R) : option (list R) :=
  map_opt (fun r =>
             if p r then
               match f r with
               | Some r' => if ok r' then Some r' else None
               | None => None
               end
             else Some r) t.

End Sql.

(** ** Enumerations of the schema *)

Inductive programming_language :=
  | javascript | python | java | typescript | go | rust.

Scheme Equality for programming_language.

(** ** Table [user_skills] *)

Module UserSkills.

(** A row of [user_skills]; UUIDs and timestamps are integers. Integer
    columns without [NOT NULL] are nullable. *)
Record row := mk_row {
  id : Z;
  user_id : Z;
  language : programming_language;
  current_difficulty_score : Sql.int;
  total_questions_attempted : Sql.int;
  correct_answers : Sql.int;
  current_streak : Sql.int;
  best_streak : Sql.int;
  last_practiced_at : option Z;
  updated_at : option Z
}.

Definition table := list row.

(** [CONSTRAINT valid_current_difficulty CHECK (current_difficulty_score >= 1
    AND current_difficulty_score <= 100)] *)
Definition valid_current_difficulty (r : row) : bool :=
  Sql.check (Sql.and3 (Sql.ge (current_difficulty_score r) (Some 1))
                      (Sql.cmp Z.leb (current_difficulty_score r) (Some 100))).

(** [WHERE user_id = p_user_id AND language = p_language] *)
Definition matches (u : Z) (l : programming_language) (r : row) : bool :=
  (user_id r =? u) && programming_language_beq (language r) l.

(** [SELECT * INTO v FROM user_skills WHERE ...]: the first matching row,
    or NOT FOUND. *)
Definition select (t : table) (u : Z) (l : programming_language) : option row :=
  find (matches u l) t.

(** [INSERT INTO user_skills (user_id, language, current_difficulty_score)
    VALUES (u, l, 10)]: the other columns take their defaults
    ([DEFAULT 0] counters, NULL [last_practiced_at], [updated_at = NOW()]);
    [fresh] is the value of [uuid_generate_v4()]. The insert fails on a
    duplicate [(user_id, language)] ([UNIQUE]) or a failed [CHECK]. *)
Definition insert_default (fresh now : Z) (t : table) (u : Z)
    (l : programming_language) : option (table * row) :=
  let r := mk_row fresh u l (Some 10) (Some 0) (Some 0) (Some 0) (Some 0)
                  None (Some now) in
  if existsb (matches u l) t || negb (valid_current_difficulty r) then None
  else Some (t ++ [r], r).

(** [get_or_create_user_skill(p_user_id, p_language)] *)
Definition get_or_create_user_skill (fresh now : Z) (t : table) (u : Z)
    (l : programming_language) : option (table * row) :=
  match select t u l with
  | Some v_skill => Some (t, v_skill)
  | None => insert_default fresh now t u l
  end.

(** The [IF p_is_correct THEN ... ELSE ... END IF] block of
    [update_user_difficulty]: the new values of [v_new_difficulty] and
    [v_current_streak], or [None] when an int4 operation raises. *)
Definition adjust (p_is_correct : bool) (p_question_difficulty : Z)
    (v_new_difficulty v_current_streak : Sql.int) : option (Sql.int * Sql.int) :=
  let qd := Some p_question_difficulty in
  if p_is_correct then
    match Sql.add4 v_new_difficulty
            (Sql.case_when
               [(Sql.ge v_current_streak (Some 3), Some 5);
                (Sql.gt qd v_new_difficulty, Some 3)] (Some 2)) with
    | None => None
    | Some sum =>
        let v_new_difficulty := Sql.least (Some 100) sum in
        match Sql.add4 v_current_streak (Some 1) with
        | None => None
        | Some v_current_streak => Some (v_new_difficulty, v_current_streak)
        end
    end
  else
    match Sql.sub4 v_new_difficulty
            (Sql.case_when
               [(Sql.gt v_current_streak (Some 0), Some 2);
                (Sql.lt qd v_new_difficulty, Some 5)] (Some 3)) with
    | None => None
    | Some diff => Some (Sql.greatest (Some 1) diff, Some 0)
    end.

(** The [SET] list of the [UPDATE user_skills] of [update_user_difficulty]
    on one row; [None] when an int4 increment raises. *)
Definition set_clause (now : Z) (p_is_correct : bool)
    (v_new_difficulty v_current_streak : Sql.int) (r : row) : option row :=
  match Sql.add4 (total_questions_attempted r) (Some 1),
        Sql.add4 (correct_answers r) (Some (if p_is_correct then 1 else 0)) with
  | Some total, Some correct =>
      Some (mk_row (id r) (user_id r) (language r)
              v_new_difficulty total correct
              v_current_streak
              (Sql.greatest (best_streak r) v_current_streak)
              (Some now) (Some now))
  | _, _ => None
  end.

(** [update_user_difficulty(p_user_id, p_language, p_is_correct,
    p_question_difficulty)]: returns the new table and the function's
    result [v_new_difficulty], or [None] when the function raises (an
    int4 overflow or a failed [CHECK]); the transaction then leaves the
    table as it was. *)
Definition update_user_difficulty (now : Z) (t : table) (u : Z)
    (l : programming_language) (p_is_correct : bool)
    (p_question_difficulty : Z) : option (table * Sql.int) :=
  (* SELECT current_difficulty_score, current_streak INTO ...; both
     variables stay NULL when no row is found *)
  let '(v_new_difficulty, v_current_streak) :=
    match select t u l with
    | Some r => (current_difficulty_score r, current_streak r)
    | None => (None, None)
    end in
  match adjust p_is_correct p_question_difficulty v_new_difficulty v_current_streak with
  | None => None
  | Some (v_new_difficulty, v_current_streak) =>
      match Sql.update valid_current_difficulty (matches u l)
              (set_clause now p_is_correct v_new_difficulty v_current_streak) t with
      | Some t' => Some (t', v_new_difficulty)
      | None => None
      end
  end.

End UserSkills.

(** ** PostgREST updates issued by [supabase-js]

    [.from(t).update(values)] sends [JSON.stringify(values)] as a PATCH
    body. A property whose value is [undefined] is dropped; an unawaited
    query builder (such as [supabase.rpc('increment', ...)]) is an object
    and serialises to a JSON object, which PostgreSQL refuses for an
    integer column. *)

Inductive js_value :=
  | JUndefined
  | JNumber (n : Z)
  | JTimestamp (t : Z)      (** [new Date().toISOString()] *)
  | JQueryBuilder.          (** a [PostgrestFilterBuilder], not awaited *)

Definition defined (v : js_value) : bool :=
  match v with JUndefined => false | _ => true end.

(** The columns of [learning_sessions] the route handlers write. *)
Inductive session_column := ended_at_col | questions_attempted_col | questions_correct_col.

(** [JSON.stringify] drops [undefined] properties. *)
Definition json_body (values : list (session_column * js_value))
    : list (session_column * js_value) :=
  filter (fun cv => defined (snd cv)) values.

(** ** Table [learning_sessions] *)

Module Sessions.

Record row := mk_row {
  id : Z;
  user_id : Z;
  language : programming_language;
  started_at : option Z;
  ended_at : option Z;
  questions_attempted : Sql.int;
  questions_correct : Sql.int
}.

Definition table := list row.

(** [CONSTRAINT valid_session_dates CHECK (ended_at IS NULL OR ended_at >=
    started_at)] *)
Definition valid_session_dates (r : row) : bool :=
  match ended_at r with
  | None => true
  | Some e => Sql.check (Sql.ge (Some e) (started_at r))
  end.

(** Writing one JSON property into one column: a timestamp column takes
    an ISO string, an [INTEGER] column a number within int4 (PostgreSQL
    refuses a larger one, error 22003); anything else is an error. *)
Definition set_column (r : row) (c : session_column) (v : js_value) : option row :=
  match c, v with
  | ended_at_col, JTimestamp e =>
      Some (mk_row (id r) (user_id r) (language r) (started_at r) (Some e)
              (questions_attempted r) (questions_correct r))
  | questions_attempted_col, JNumber n =>
      if Sql.fits (Some n) then
        Some (mk_row (id r) (user_id r) (language r) (started_at r) (ended_at r)
                (Some n) (questions_correct r))
      else None
  | questions_correct_col, JNumber n =>
      if Sql.fits (Some n) then
        Some (mk_row (id r) (user_id r) (language r) (started_at r) (ended_at r)
                (questions_attempted r) (Some n))
      else None
  | _, _ => None
  end.

Definition apply_body (body : list (session_column * js_value)) (r : row)
    : option row :=
  fold_left (fun acc cv => match acc with
                           | Some r' => set_column r' (fst cv) (snd cv)
                           | None => None
                           end) body (Some r).

(** Number of rows an [.eq(...)] filter selects. *)
Definition count_sel (sel : row -> bool) (t : table) : nat := List.length (filter sel t).

(** [.update(values).eq(...)] (with [.single()] when [single]): [None] is
    an error response, after which the table is unchanged. An empty body
    changes nothing. With [.single()] the request fails unless exactly one
    row is affected. *)
Definition patch (single : bool) (sel : row -> bool)
    (values : list (session_column * js_value)) (t : table) : option table :=
  let body := json_body values in
  match body with
  | [] => Some t
  | _ =>
      if single && negb (Nat.eqb (count_sel sel t) 1) then None
      else map_opt (fun r =>
             if sel r then
               match apply_body body r with
               | Some r' => if valid_session_dates r' then Some r' else None
               | None => None
               end
             else Some r) t
  end.

(** [POST /api/sessions/start]: [.insert({user_id, language, started_at:
    new Date().toISOString(), questions_attempted: 0, questions_correct: 0})];
    [fresh] is the generated [id]. *)
Definition start_session (fresh now : Z) (t : table) (uid : Z)
    (l : programming_language) : option (table * row) :=
  let r := mk_row fresh uid l (Some now) None (Some 0) (Some 0) in
  if valid_session_dates r then Some (t ++ [r], r) else None.

(** [POST /api/sessions/[id]/end]: [.update({ended_at: new
    Date().toISOString()}).eq('id', sessionId).eq('user_id', userId)
    .select().single()]; [None] is the 404 response. *)
Definition end_session (t : table) (sid uid now : Z) : option table :=
  patch true (fun r => (id r =? sid) && (user_id r =? uid))
    [(ended_at_col, JTimestamp now)] t.

(** JavaScript's [x + 1] on a column value read back as [number | null]:
    [null + 1] is [1]. *)
Definition js_plus_one (v : Sql.int) : Z :=
  match v with Some n => n + 1 | None => 1 end.

(** The rows of [learning_sessions] a request of user [uid] filtered by
    [.eq('id', sid)] reads or writes: the RLS policy "Users can manage own
    sessions" ([FOR ALL USING (auth.uid() = user_id)]) adds
    [user_id = auth.uid()] to every select and update. *)
Definition visible (uid sid : Z) (r : row) : bool :=
  (id r =? sid) && (user_id r =? uid).

(** Session bookkeeping of [POST /api/generate-question] by user [userId]:
    read [questions_attempted] with [.single()], write it back plus one;
    fetch and update errors are only logged. *)
Definition generate_question_session_update (userId : Z) (sessionId : option Z)
    (t : table) : table :=
  match sessionId with
  | None => t
  | Some sid =>
      match filter (visible userId sid) t with
      | [currentSession] =>
          match patch false (visible userId sid)
                  [(questions_attempted_col,
                    JNumber (js_plus_one (questions_attempted currentSession)))] t with
          | Some t' => t'
          | None => t
          end
      | _ => t
      end
  end.

(** Session bookkeeping of [POST /api/check-answer] by user [userId]:
    [.update({questions_correct: is_correct ? supabase.rpc('increment',
    {x: 1}) : undefined}).eq('id', sessionId)]; the result is not
    inspected. *)
Definition check_answer_session_update (userId : Z) (sessionId : option Z)
    (is_correct : bool) (t : table) : table :=
  match sessionId with
  | None => t
  | Some sid =>
      match patch false (visible userId sid)
              [(questions_correct_col,
                if is_correct then JQueryBuilder else JUndefined)] t with
      | Some t' => t'
      | None => t
      end
  end.

End Sessions.

(** ** Table [questions] and the question generator *)

Inductive difficulty_level := beginner | easy | medium | hard | expert.

(** PostgreSQL orders the values of an enum type in declaration order. *)
Definition difficulty_level_ord (d : difficulty_level) : Z :=
  match d with beginner => 0 | easy => 1 | medium => 2 | hard => 3 | expert => 4 end.

Module Questions.

(** The object the LLM returns, after [JSON.parse]; a JSON number is an
    integer here, so [.int()] always holds. *)
Record generated_question := mk_generated {
  code_snippet : string;
  question : string;
  correct_answer : string;
  explanation : string;
  concepts : list string;
  difficulty_score : Z
}.

(** [QuestionSchema.parse] *)
Definition question_schema_parse (g : generated_question)
    : option generated_question :=
  if Nat.leb 10 (String.length (code_snippet g))
     && Nat.leb 10 (String.length (question g))
     && Nat.leb 1 (String.length (correct_answer g))
     && Nat.leb 20 (String.length (explanation g))
     && Nat.leb 1 (List.length (concepts g))
     && Nat.leb (List.length (concepts g)) 5
     && (1 <=? difficulty_score g) && (difficulty_score g <=? 100)
  then Some g else None.

Record row := mk_row {
  id : Z;
  code_snippet_col : string;
  question_text : string;
  correct_answer_col : string;
  difficulty : difficulty_level;
  language : programming_language;
  concepts_col : list string;
  created_by : Z;
  difficulty_score_col : Z
}.

Definition table := list row.

(** [CONSTRAINT valid_difficulty_score CHECK (difficulty_score >= 1 AND
    difficulty_score <= 100)]; the column is [NOT NULL]. *)
Definition valid_difficulty_score (r : row) : bool :=
  (1 <=? difficulty_score_col r) && (difficulty_score_col r <=? 100).

(** [mapScoreToDifficulty] *)
Definition mapScoreToDifficulty (score : Z) : difficulty_level :=
  if score <=? 20 then beginner
  else if score <=? 40 then easy
  else if score <=? 60 then medium
  else if score <=? 80 then hard
  else expert.

(** [.from('questions').insert({...}).select().single()] *)
Definition insert_question (fresh : Z) (t : table) (g : generated_question)
    (l : programming_language) (uid : Z) : option (table * row) :=
  let r := mk_row fresh (code_snippet g) (question g) (correct_answer g)
             (mapScoreToDifficulty (difficulty_score g)) l (concepts g) uid
             (difficulty_score g) in
  if valid_difficulty_score r then Some (t ++ [r], r) else None.

(** [.from('questions').select('*').eq('id', questionId).single()] *)
Definition fetch (t : table) (qid : Z) : option row :=
  match filter (fun r => id r =? qid) t with
  | [q] => Some q
  | _ => None
  end.

End Questions.

(** ** Reading the LLM's reply ([generation-service])

    Both [generateQuestion] and [checkAnswer] (and their helpers
    [parseAndValidateResponse] / [parseAndValidateAnswerCheck] in the
    variant with a Groq fallback) turn the reply into JSON text the same
    way: [trim()], then, when the text starts with three backticks, the
    global replacements [/```json\n?/g] and [/```\n?/g] and a second
    [trim()]. Strings are ASCII here. *)

Module Llm.

Definition backtick : ascii := "`"%char.
Definition newline : ascii := "010"%char.

(** The ASCII characters [String.prototype.trim] removes. *)
Definition is_js_whitespace (c : ascii) : bool :=
  match nat_of_ascii c with
  | 9 | 10 | 11 | 12 | 13 | 32 => true
  | _ => false
  end%nat.

Fixpoint trim_start (s : string) : string :=
  match s with
  | String c s' => if is_js_whitespace c then trim_start s' else s
  | EmptyString => EmptyString
  end.

Fixpoint trim_end (s : string) : string :=
  match s with
  | EmptyString => EmptyString
  | String c s' =>
      match trim_end s' with
      | EmptyString => if is_js_whitespace c then EmptyString else String c EmptyString
      | r => String c r
      end
  end.

(** [s.trim()] *)
Definition trim (s : string) : string := trim_end (trim_start s).

(** [s.startsWith(p)] *)
Fixpoint starts_with (p s : string) : bool :=
  match p, s with
  | EmptyString, _ => true
  | String a p', String b s' => Ascii.eqb a b && starts_with p' s'
  | String _ _, EmptyString => false
  end.

(** [s.replace(/```json\n?/g, '')]: left to right, each match removed
    together with one newline right after it. *)
Fixpoint replace_json_fence (s : string) : string :=
  match s with
  | String a ((String b (String c (String d (String e (String f (String g r)))))) as s1) =>
      if Ascii.eqb a backtick && Ascii.eqb b backtick && Ascii.eqb c backtick &&
         Ascii.eqb d "j"%char && Ascii.eqb e "s"%char && Ascii.eqb f "o"%char &&
         Ascii.eqb g "n"%char
      then match r with
           | String n r' => if Ascii.eqb n newline then replace_json_fence r'
                            else replace_json_fence r
           | EmptyString => EmptyString
           end
      else String a (replace_json_fence s1)
  | String a s1 => String a (replace_json_fence s1)
  | EmptyString => EmptyString
  end.

(** [s.replace(/```\n?/g, '')] *)
Fixpoint replace_ticks (s : string) : string :=
  match s with
  | String a ((String b (String c r)) as s1) =>
      if Ascii.eqb a backtick && Ascii.eqb b backtick && Ascii.eqb c backtick
      then match r with
           | String n r' => if Ascii.eqb n newline then replace_ticks r'
                            else replace_ticks r
           | EmptyString => EmptyString
           end
      else String a (replace_ticks s1)
  | String a s1 => String a (replace_ticks s1)
  | EmptyString => EmptyString
  end.

Definition fence_json : string := String backtick (String backtick (String backtick
  (String "j"%char (String "s"%char (String "o"%char (String "n"%char EmptyString)))))).
Definition fence : string := String backtick (String backtick (String backtick EmptyString)).

(** The text handed to [JSON.parse]. *)
Definition extract_json (content : string) : string :=
  let jsonContent := trim content in
  if starts_with fence_json jsonContent then
    trim (replace_ticks (replace_json_fence jsonContent))
  else if starts_with fence jsonContent then trim (replace_ticks jsonContent)
  else jsonContent.

Section WithJsonParse.

(** [JSON.parse] followed by the typing of its result; [None] is a
    [SyntaxError]. *)
Variable json_parse : string -> option Questions.generated_question.

(** [parseAndValidateResponse(content)]: [None] for a null or empty reply
    ([if (!content) throw]), a parse error, or a [QuestionSchema]
    failure. *)
Definition parseAndValidateResponse (content : option string)
    : option Questions.generated_question :=
  match content with
  | None | Some EmptyString => None
  | Some c =>
      match json_parse (extract_json c) with
      | Some parsed => Questions.question_schema_parse parsed
      | None => None
      end
  end.

(** [generateQuestion] with the Groq fallback: each provider's reply is
    [None] when its API call throws, otherwise its message content. *)
Definition generateQuestion_with_fallback
    (openrouter groq : option (option string)) : option Questions.generated_question :=
  match match openrouter with
        | Some content => parseAndValidateResponse content
        | None => None
        end with
  | Some validated => Some validated
  | None =>
      match groq with
      | Some content => parseAndValidateResponse content
      | None => None
      end
  end.

End WithJsonParse.

End Llm.

(** ** Route handlers *)

Import UserSkills Sessions Questions.

(** The tables the route handlers touch ([user_progress] is written by
    [check-answer] before the skill update and is not modelled; the
    handler proceeds only when that insert succeeded). *)
Record db := mk_db {
  skills : UserSkills.table;
  sessions : Sessions.table;
  questions : Questions.table
}.

(** [POST /api/generate-question] for [userId], [language] and an
    optional [sessionId]. The LLM is an oracle: [llm] is its parsed reply
    to the prompt built from the current difficulty. Steps already
    performed stay performed when a later step throws (each is its own
    request). The second component is the saved question, [None] on a 500
    response. *)
Definition generate_question (fresh_skill fresh_q now : Z) (d : db)
    (userId : Z) (l : programming_language) (sessionId : option Z)
    (llm : generated_question) : db * option Questions.row :=
  match get_or_create_user_skill fresh_skill now (skills d) userId l with
  | None => (d, None)
  | Some (sk, _skillData) =>
      let d1 := mk_db sk (sessions d) (questions d) in
      match question_schema_parse llm with
      | None => (d1, None)
      | Some generatedQuestion =>
          match insert_question fresh_q (questions d) generatedQuestion l userId with
          | None => (d1, None)
          | Some (qt, savedQuestion) =>
              (mk_db sk (generate_question_session_update userId sessionId (sessions d)) qt,
               Some savedQuestion)
          end
      end
  end.

(** The arguments [check-answer] passes to the [update_user_difficulty]
    RPC besides the user and the verdict: [question.language] and
    [question.difficulty_score] of the fetched question. *)
Definition check_answer_rpc_args (qt : Questions.table) (questionId : Z)
    : option (programming_language * Z) :=
  match fetch qt questionId with
  | Some q => Some (Questions.language q, difficulty_score_col q)
  | None => None
  end.

(** [POST /api/check-answer]; [is_correct] is the LLM judge's verdict.
    [None] is the 404 response (question not found). The RPC's error is
    not inspected. *)
Definition check_answer (now : Z) (d : db) (userId questionId : Z)
    (sessionId : option Z) (is_correct : bool) : option db :=
  match check_answer_rpc_args (questions d) questionId with
  | None => None
  | Some (l, qd) =>
      let sk :=
        match update_user_difficulty now (skills d) userId l is_correct qd with
        | Some (t', _newDifficulty) => t'
        | None => skills d
        end in
      Some (mk_db sk (check_answer_session_update userId sessionId is_correct (sessions d))
              (questions d))
  end.

(** ** The older [generate-question] handler

    Its session bookkeeping is [.update({questions_attempted:
    supabase.rpc('increment', {x: 1})}).eq('id', sessionId)], result not
    inspected; as above, RLS restricts it to the rows of [userId]. *)
Definition generate_question_session_update_v0 (userId : Z) (sessionId : option Z)
    (t : Sessions.table) : Sessions.table :=
  match sessionId with
  | None => t
  | Some sid =>
      match patch false (visible userId sid)
              [(questions_attempted_col, JQueryBuilder)] t with
      | Some t' => t'
      | None => t
      end
  end.

(** ** [buildQuestionPrompt]: the difficulty description *)

Module Prompts.
Local Open Scope string_scope.

(** The [difficultyLevel] constant of [buildQuestionPrompt]. *)
Definition difficultyLevel (difficulty : Z) : string :=
  if Z.leb difficulty 20 then "beginner (basic syntax, simple variables)"
  else if Z.leb difficulty 40 then "easy (simple functions, basic control flow)"
  else if Z.leb difficulty 60 then "medium (intermediate concepts, basic algorithms)"
  else if Z.leb difficulty 80 then "hard (advanced concepts, complex logic)"
  else "expert (edge cases, performance optimization, advanced patterns)".

(** The labels of the SQL enum [difficulty_level]. *)
Definition difficulty_label (d : difficulty_level) : string :=
  match d with
  | beginner => "beginner" | easy => "easy" | medium => "medium"
  | hard => "hard" | expert => "expert"
  end.

End Prompts.

(** ** [GET /api/leaderboard]: ranking *)

(** [leaderboard?.map((entry, index) => ({rank: index + 1, ...entry}))]
    [|| []]: the rows of [leaderboard_view] carry no [rank] column, so the
    spread keeps the computed rank. *)
Fixpoint rank_from {A} (index : Z) (entries : list A) : list (Z * A) :=
  match entries with
  | [] => []
  | entry :: rest => (index + 1, entry) :: rank_from (index + 1) rest
  end.

Definition rankedLeaderboard {A} (leaderboard : option (list A)) : list (Z * A) :=
  match leaderboard with
  | Some entries => rank_from 0 entries
  | None => []
  end.

(** ** The client store [useLearningStore] *)

Module Store.

Record Question := mk_question {
  id : Z;
  codeSnippet : string;
  question : string;
  concepts : list string;
  difficulty : string;
  currentScore : Z;
  language : option programming_language
}.

Record Feedback := mk_feedback {
  isCorrect : bool;
  feedback_text : string;
  hint : option string;
  correctAnswer : string;
  explanation : option string;
  newDifficultyScore : option Z
}.

Record LearningStore := mk_store {
  currentQuestion : option Question;
  feedback : option Feedback;
  isLoading : bool;
  sessionId : option Z
}.

(** The requests the store sends. *)
Inductive request :=
  | PostGenerateQuestion (language : programming_language) (sessionId : option Z)
  | PostCheckAnswer (questionId : Z) (userAnswer : string) (sessionId : option Z)
  | PostSessionsStart (language : programming_language)
  | PostSessionsEnd (sessionId : Z).

(** The outcome of a [fetch]: it rejects ([NetworkError]) or yields a
    response with [response.ok] and the result of [response.json()]
    ([None] when the body is not JSON and [json()] rejects). *)
Inductive fetch_result (A : Type) :=
  | NetworkError
  | Response (ok : bool) (body : option A).
Arguments NetworkError {A}.
Arguments Response {A} ok body.

(** [set(partial)] merges into the state; these are the merges used. *)
Definition set_loading (s : LearningStore) (b : bool) : LearningStore :=
  mk_store (currentQuestion s) (feedback s) b (sessionId s).

Definition with_language (q : Question) (l : programming_language) : Question :=
  mk_question (id q) (codeSnippet q) (question q) (concepts q) (difficulty q)
    (currentScore q) (Some l).

(** Each action returns the requests it sent and the state once it has
    completed. *)
Definition fetchNewQuestion (language : programming_language)
    (res : fetch_result Question) (s : LearningStore)
    : list request * LearningStore :=
  let s1 := mk_store (currentQuestion s) None true (sessionId s) in
  ([PostGenerateQuestion language (sessionId s1)],
   match res with
   | Response true (Some data) =>
       mk_store (Some (with_language data language)) (feedback s1) false (sessionId s1)
   | _ => set_loading s1 false
   end).

Definition submitAnswer (answer : string) (res : fetch_result Feedback)
    (s : LearningStore) : list request * LearningStore :=
  match currentQuestion s with
  | None => ([], s)
  | Some q =>
      let s1 := set_loading s true in
      ([PostCheckAnswer (id q) answer (sessionId s1)],
       match res with
       | Response true (Some data) =>
           mk_store (currentQuestion s1) (Some data) false (sessionId s1)
       | _ => set_loading s1 false
       end)
  end.

Definition clearFeedback (s : LearningStore) : LearningStore :=
  mk_store (currentQuestion s) None (isLoading s) (sessionId s).

(** [startSession]: the body's [sessionId] ([None] when absent) is stored
    only after an ok response whose body parses; otherwise the error is
    caught. *)
Definition startSession (language : programming_language)
    (res : fetch_result (option Z)) (s : LearningStore)
    : list request * LearningStore :=
  ([PostSessionsStart language],
   match res with
   | Response true (Some sid) =>
       mk_store (currentQuestion s) (feedback s) (isLoading s) sid
   | _ => s
   end).

(** [endSession]: on a non-ok response the error body is read with
    [response.json()] before [set({sessionId: null})]; a rejection of
    [fetch] or of [json()] is caught before it. *)
Definition endSession (res : fetch_result unit) (s : LearningStore)
    : list request * LearningStore :=
  match sessionId s with
  | None => ([], s)
  | Some sid =>
      ([PostSessionsEnd sid],
       match res with
       | NetworkError => s
       | Response true _ | Response false (Some _) =>
           mk_store (currentQuestion s) (feedback s) (isLoading s) None
       | Response false None => s
       end)
  end.

(** The session id a request carries ([sessionId] in the JSON body, or
    the path segment of [/api/sessions/${sessionId}/end]). *)
Definition request_session (r : request) : option Z :=
  match r with
  | PostGenerateQuestion _ sid | PostCheckAnswer _ _ sid => sid
  | PostSessionsStart _ => None
  | PostSessionsEnd sid => Some sid
  end.

(** The store's actions, each awaited before the next one starts, with
    the outcome of the [fetch] it performs. *)
Inductive action :=
  | AFetchNewQuestion (language : programming_language) (res : fetch_result Question)
  | ASubmitAnswer (answer : string) (res : fetch_result Feedback)
  | AClearFeedback
  | AStartSession (language : programming_language) (res : fetch_result (option Z))
  | AEndSession (res : fetch_result unit).

Definition run_action (a : action) (s : LearningStore) : list request * LearningStore :=
  match a with
  | AFetchNewQuestion l res => fetchNewQuestion l res s
  | ASubmitAnswer ans res => submitAnswer ans res s
  | AClearFeedback => ([], clearFeedback s)
  | AStartSession l res => startSession l res s
  | AEndSession res => endSession res s
  end.

(** The requests sent, in order, and the final state. *)
Fixpoint run_store (acts : list action) (s : LearningStore)
    : list request * LearningStore :=
  match acts with
  | [] => ([], s)
  | a :: rest =>
      let '(reqs1, s1) := run_action a s in
      let '(reqs2, s2) := run_store rest s1 in
      (reqs1 ++ reqs2, s2)
  end.

End Store.

(** ** Reachable states *)

(** Skill tables reachable from the empty table through the two SQL
    functions, [update_user_difficulty] being called with a question
    difficulty in [1,100]. *)
Inductive skills_reachable : UserSkills.table -> Prop :=
  | skills_empty : skills_reachable []
  | skills_get_or_create t t' fresh now u l r :
      skills_reachable t ->
      get_or_create_user_skill fresh now t u l = Some (t', r) ->
      skills_reachable t'
  | skills_update t t' now u l b qd v :
      skills_reachable t ->
      1 <= qd <= 100 ->
      update_user_difficulty now t u l b qd = Some (t', v) ->
      skills_reachable t'.

(** A sequence of judged answers [(now, is_correct, question difficulty)]
    for one user and language, each followed by [update_user_difficulty];
    as in [check-answer], which does not inspect the RPC's error, a call
    that raises leaves the table as it was and the sequence goes on. *)
Fixpoint run_answers (t : UserSkills.table) (u : Z) (l : programming_language)
    (steps : list (Z * bool * Z)) : UserSkills.table :=
  match steps with
  | [] => t
  | (now, b, qd) :: rest =>
      match update_user_difficulty now t u l b qd with
      | Some (t', _) => run_answers t' u l rest
      | None => run_answers t u l rest
      end
  end.

(** Session tables reachable through the route handlers that write
    [learning_sessions]. *)
Inductive sessions_reachable : Sessions.table -> Prop :=
  | sessions_empty : sessions_reachable []
  | sessions_start t t' fresh now uid l r :
      sessions_reachable t ->
      start_session fresh now t uid l = Some (t', r) ->
      sessions_reachable t'
  | sessions_end t t' sid uid now :
      sessions_reachable t ->
      end_session t sid uid now = Some t' ->
      sessions_reachable t'
  | sessions_generate t uid sid :
      sessions_reachable t ->
      sessions_reachable (generate_question_session_update uid sid t)
  | sessions_check t uid sid b :
      sessions_reachable t ->
      sessions_reachable (check_answer_session_update uid sid b t).

(** A session row without its [questions_correct] column. *)
Definition without_correct (r : Sessions.row)
    : Z * Z * programming_language * option Z * option Z * Sql.int :=
  (Sessions.id r, Sessions.user_id r, Sessions.language r, started_at r,
   ended_at r, questions_attempted r).

(** A session row with [questions_attempted] replaced. *)
Definition with_attempted (r : Sessions.row) (n : Z) : Sessions.row :=
  Sessions.mk_row (Sessions.id r) (Sessions.user_id r) (Sessions.language r)
    (started_at r) (ended_at r) (Some n) (questions_correct r).

(** A session row with [ended_at] replaced. *)
Definition with_ended (r : Sessions.row) (e : Z) : Sessions.row :=
  Sessions.mk_row (Sessions.id r) (Sessions.user_id r) (Sessions.language r)
    (started_at r) (Some e) (questions_attempted r) (questions_correct r).

(** The int4 arithmetic [update_user_difficulty] performs on row [r] for
    a verdict [b] stays in range: the streak increment (right answer) and
    the increments of both counters. *)
Definition increments_fit (b : bool) (r : UserSkills.row) : bool :=
  (if b then Sql.fits (Sql.add (current_streak r) (Some 1)) else true) &&
  Sql.fits (Sql.add (total_questions_attempted r) (Some 1)) &&
  Sql.fits (Sql.add (correct_answers r) (Some (if b then 1 else 0))).

(** The row the [SET] list of [update_user_difficulty] produces from
    [r] when neither increment raises. *)
Definition set_row (now : Z) (b : bool) (vn vs : Sql.int) (r : UserSkills.row)
    : UserSkills.row :=
  UserSkills.mk_row (UserSkills.id r) (UserSkills.user_id r) (UserSkills.language r)
    vn (Sql.add (total_questions_attempted r) (Some 1))
    (Sql.add (correct_answers r) (Some (if b then 1 else 0)))
    vs (Sql.greatest (best_streak r) vs) (Some now) (Some now).

(** A skill row of user 7 for [python] with score [s] and streak (and
    best streak) [k], used by the instances at the end of the file. *)
Definition sample_skill (s k : Z) : UserSkills.row :=
  UserSkills.mk_row 3 7 python (Some s) (Some 4) (Some 2) (Some k) (Some k) None (Some 0).

(** An open session of user 7 started at time 20. *)
Definition sample_session : Sessions.row :=
  Sessions.mk_row 1 7 python (Some 20) None (Some 2) (Some 1).

(** A reply of the LLM that passes [QuestionSchema], difficulty 50. *)
Definition sample_generated : Questions.generated_question :=
  mk_generated "for (;;) {}"%string "What does this do?"%string
    "It loops"%string "An infinite loop with no body."%string ["loops"%string] 50.

(** A saved question of id 100, difficulty 50, in [python]. *)
Definition sample_question : Questions.row :=
  Questions.mk_row 100 "for (;;) {}"%string "What does this do?"%string
    "It loops"%string medium python ["loops"%string] 7 50.

(** ** Lemmas on the SQL layer *)

Lemma map_opt_map {A} (f : A -> option A) (g : A -> A) (t : list A) :
  (forall x, In x t -> f x = Some (g x)) -> map_opt f t = Some (map g t).
Proof.
  induction t as [|a t IH]; intros H; simpl; [reflexivity|].
  rewrite (H a (or_introl eq_refl)), IH; [reflexivity|].
  intros x Hx; apply H; right; exact Hx.
Qed.

Lemma map_opt_none {A} (f : A -> option A) (t : list A) (x : A) :
  In x t -> f x = None -> map_opt f t = None.
Proof.
  induction t as [|a t IH]; intros Hin Hx; [inversion Hin|]; simpl.
  destruct Hin as [->|Hin]; [rewrite Hx; reflexivity|].
  rewrite (IH Hin Hx); destruct (f a); reflexivity.
Qed.

Lemma map_opt_forall {A} (P : A -> Prop) (f : A -> option A) (t t' : list A) :
  (forall x y, P x -> f x = Some y -> P y) ->
  Forall P t -> map_opt f t = Some t' -> Forall P t'.
Proof.
  intros Hf; revert t'; induction t as [|a t IH]; intros t' Ht H; simpl in H.
  - injection H as <-; constructor.
  - inversion Ht as [|? ? Ha Ht']; subst.
    destruct (f a) as [b|] eqn:Ea; [|discriminate].
    destruct (map_opt f t) as [t''|]; [|discriminate].
    injection H as <-; constructor; [exact (Hf a b Ha Ea)|exact (IH t'' Ht' eq_refl)].
Qed.

Lemma find_map_update {R} (p : R -> bool) (f : R -> R) (t : list R) :
  (forall r, p r = true -> p (f r) = true) ->
  find p (map (fun r => if p r then f r else r) t) = option_map f (find p t).
Proof.
  intros Hp; induction t as [|a t IH]; simpl; [reflexivity|].
  destruct (p a) eqn:E; simpl.
  - rewrite (Hp a E); reflexivity.
  - rewrite E; exact IH.
Qed.

Lemma filter_map_update {R} (p : R -> bool) (f : R -> R) (t : list R) :
  (forall r, p r = true -> p (f r) = true) ->
  filter p (map (fun r => if p r then f r else r) t) = map f (filter p t).
Proof.
  intros Hp; induction t as [|a t IH]; simpl; [reflexivity|].
  destruct (p a) eqn:E; simpl.
  - rewrite (Hp a E), IH; reflexivity.
  - rewrite E; exact IH.
Qed.

Lemma find_filter_single {R} (p : R -> bool) (t : list R) (r : R) :
  filter p t = [r] -> find p t = Some r.
Proof.
  induction t as [|a t IH]; simpl; [discriminate|].
  destruct (p a); [intros H; injection H as <- _; reflexivity|exact IH].
Qed.

Lemma filter_single_in {R} (p : R -> bool) (t : list R) (r r0 : R) :
  filter p t = [r] -> In r0 t -> p r0 = true -> r0 = r.
Proof.
  intros Hf Hin Hp.
  assert (H : In r0 (filter p t)) by (apply filter_In; split; assumption).
  rewrite Hf in H; destruct H as [<-|[]]; reflexivity.
Qed.

(** An [UPDATE] whose [SET] list succeeds on every selected row and
    whose result rows pass the constraint. *)
Lemma sql_update_ok {R} (ok p : R -> bool) (f : R -> option R) (g : R -> R) (t : list R) :
  (forall r, In r t -> p r = true -> f r = Some (g r) /\ ok (g r) = true) ->
  Sql.update ok p f t = Some (map (fun r => if p r then g r else r) t).
Proof.
  intros H; unfold Sql.update; apply map_opt_map.
  intros r Hr; destruct (p r) eqn:E; [|reflexivity].
  destruct (H r Hr E) as [-> ->]; reflexivity.
Qed.

(** A successful [UPDATE] rewrites exactly the selected rows, each by
    the result of its [SET] list. *)
Lemma sql_update_map {R} (ok p : R -> bool) (f : R -> option R) (g : R -> R)
    (t t' : list R) :
  (forall r r', p r = true -> f r = Some r' -> r' = g r) ->
  Sql.update ok p f t = Some t' -> t' = map (fun r => if p r then g r else r) t.
Proof.
  intros Hg; unfold Sql.update; revert t'; induction t as [|a t IH]; intros t' H;
    simpl in H.
  - injection H as <-; reflexivity.
  - destruct (p a) eqn:E.
    + destruct (f a) as [a'|] eqn:Ef; [|discriminate].
      destruct (ok a'); [|discriminate].
      destruct (map_opt _ t) as [t1|]; [|discriminate].
      injection H as <-; simpl; rewrite E, (Hg a a' E Ef), (IH t1 eq_refl); reflexivity.
    + destruct (map_opt _ t) as [t1|]; [|discriminate].
      injection H as <-; simpl; rewrite E, (IH t1 eq_refl); reflexivity.
Qed.

Lemma sql_update_none {R} (ok p : R -> bool) (f : R -> option R) (t : list R) :
  find p t = None -> Sql.update ok p f t = Some t.
Proof.
  intros H; unfold Sql.update; rewrite (map_opt_map _ (fun r => r)); [rewrite map_id; reflexivity|].
  intros r Hr; rewrite (find_none p t H r Hr); reflexivity.
Qed.

(** A successful [UPDATE] keeps the keys of all rows and every row
    outside its [WHERE]. *)
Lemma sql_update_frame {R K} (ok p : R -> bool) (f : R -> option R) (key : R -> K)
    (t t' : list R) :
  (forall r r', f r = Some r' -> key r' = key r) ->
  Sql.update ok p f t = Some t' ->
  map key t' = map key t /\
  forall i r, nth_error t i = Some r -> p r = false -> nth_error t' i = Some r.
Proof.
  intros Hk; unfold Sql.update; revert t'; induction t as [|a t IH]; intros t' H;
    simpl in H.
  - injection H as <-; split; [reflexivity|intros [|i] r Hi; discriminate].
  - destruct (p a) eqn:E.
    + destruct (f a) as [a'|] eqn:Ef; [|discriminate].
      destruct (ok a'); [|discriminate].
      destruct (map_opt _ t) as [t1|]; [|discriminate].
      injection H as <-; destruct (IH t1 eq_refl) as [H1 H2].
      split; [simpl; rewrite (Hk a a' Ef), H1; reflexivity|].
      intros [|i] r Hi Hp; simpl in Hi |- *; [injection Hi as <-; congruence|].
      exact (H2 i r Hi Hp).
    + destruct (map_opt _ t) as [t1|]; [|discriminate].
      injection H as <-; destruct (IH t1 eq_refl) as [H1 H2].
      split; [simpl; rewrite H1; reflexivity|].
      intros [|i] r Hi Hp; simpl in Hi |- *; [exact Hi|exact (H2 i r Hi Hp)].
Qed.

Lemma fits_range (x : Z) :
  -2147483648 <= x <= 2147483647 -> Sql.fits (Some x) = true.
Proof.
  intros H; unfold Sql.fits, Sql.int4_min, Sql.int4_max.
  apply andb_true_iff; split; apply Z.leb_le; lia.
Qed.

Lemma fits_bounds (x : Z) :
  Sql.fits (Some x) = true -> -2147483648 <= x <= 2147483647.
Proof.
  unfold Sql.fits, Sql.int4_min, Sql.int4_max; intros H.
  apply andb_true_iff in H as [H1 H2]; apply Z.leb_le in H1; apply Z.leb_le in H2; lia.
Qed.

Lemma add4_some (a b c : Sql.int) : Sql.add4 a b = Some c -> c = Sql.add a b.
Proof.
  unfold Sql.add4; destruct (Sql.fits _); intros H; [injection H as <-; reflexivity|discriminate].
Qed.

Lemma matches_set (u : Z) (l : programming_language) (r : UserSkills.row) a b c d e f g :
  matches u l r = true ->
  matches u l (UserSkills.mk_row (UserSkills.id r) (UserSkills.user_id r)
                 (UserSkills.language r) a b c d e f g) = true.
Proof. unfold matches; simpl; auto. Qed.

Lemma valid_current_difficulty_range (r : UserSkills.row) (x : Z) :
  current_difficulty_score r = Some x -> 1 <= x <= 100 ->
  valid_current_difficulty r = true.
Proof.
  intros H Hx; unfold valid_current_difficulty; rewrite H; simpl.
  replace (x >=? 1) with true by (symmetry; apply Z.geb_le; lia).
  replace (x <=? 100) with true by (symmetry; apply Z.leb_le; lia).
  reflexivity.
Qed.

(** The [IF] block on a non-NULL score in [1,100] and a non-NULL streak
    [k]: it raises only on a right answer at [k = 2147483647]. *)
Lemma adjust_cases (b : bool) (qd s k : Z) :
  1 <= s <= 100 ->
  adjust b qd (Some s) (Some k) =
    if negb b || Sql.fits (Some (k + 1)) then
      Some (Some (if b then Z.min 100 (s + (if Z.geb k 3 then 5 else if Z.gtb qd s then 3 else 2))
                  else Z.max 1 (s - (if Z.gtb k 0 then 2 else if Z.ltb qd s then 5 else 3))),
            Some (if b then k + 1 else 0))
    else None.
Proof.
  intros Hs; unfold adjust, Sql.add4, Sql.sub4; destruct b;
    cbn [Sql.ge Sql.gt Sql.lt Sql.cmp negb orb].
  - destruct (k >=? 3); [|destruct (qd >? s)]; cbn [Sql.case_when Sql.add];
      rewrite fits_range by lia; destruct (Sql.fits (Some (k + 1))); reflexivity.
  - destruct (k >? 0); [|destruct (qd <? s)]; cbn [Sql.case_when Sql.sub];
      rewrite fits_range by lia; reflexivity.
Qed.

(** The [SET] list on a row whose counter increments stay in int4. *)
Lemma set_clause_fit (now : Z) (b : bool) (vn vs : Sql.int) (r : UserSkills.row) :
  Sql.fits (Sql.add (total_questions_attempted r) (Some 1)) = true ->
  Sql.fits (Sql.add (correct_answers r) (Some (if b then 1 else 0))) = true ->
  set_clause now b vn vs r = Some (set_row now b vn vs r).
Proof.
  intros H1 H2; unfold set_clause, Sql.add4; rewrite H1, H2; reflexivity.
Qed.

Lemma set_clause_some (now : Z) (b : bool) (vn vs : Sql.int) (r r' : UserSkills.row) :
  set_clause now b vn vs r = Some r' -> r' = set_row now b vn vs r.
Proof.
  unfold set_clause; intros H.
  destruct (Sql.add4 (total_questions_attempted r) _) as [ta|] eqn:E1; [|discriminate].
  destruct (Sql.add4 (correct_answers r) _) as [tc|] eqn:E2; [|discriminate].
  apply add4_some in E1; apply add4_some in E2; subst.
  injection H as <-; reflexivity.
Qed.

(** [update_user_difficulty] on a found row with a non-NULL score in
    range and a non-NULL streak [k]: it raises on a right answer at
    [k = 2147483647]; otherwise it is the [UPDATE] with the new score and
    streak. *)
Lemma update_user_difficulty_unfold (now : Z) (t : UserSkills.table) (u : Z)
    (l : programming_language) (b : bool) (qd : Z) (r : UserSkills.row) (s k : Z) :
  select t u l = Some r ->
  current_difficulty_score r = Some s ->
  current_streak r = Some k ->
  1 <= s <= 100 ->
  let ns :=
    if b then Z.min 100 (s + (if Z.geb k 3 then 5 else if Z.gtb qd s then 3 else 2))
    else Z.max 1 (s - (if Z.gtb k 0 then 2 else if Z.ltb qd s then 5 else 3)) in
  let nk := if b then k + 1 else 0 in
  update_user_difficulty now t u l b qd =
    if negb b || Sql.fits (Some (k + 1)) then
      match Sql.update valid_current_difficulty (matches u l)
              (set_clause now b (Some ns) (Some nk)) t with
      | Some t' => Some (t', Some ns)
      | None => None
      end
    else None.
Proof.
  intros Hsel Hs Hk Hr; cbv zeta.
  unfold update_user_difficulty; rewrite Hsel; cbv beta iota.
  rewrite Hs, Hk, (adjust_cases b qd s k Hr).
  destruct (negb b || Sql.fits (Some (k + 1))); reflexivity.
Qed.

(** The effect of [update_user_difficulty] on a found row with a non-NULL
    score in range and a non-NULL streak, when its int4 increments stay in
    range: every matching row is rewritten with the new score and streak,
    and the function returns the new score. *)
Lemma update_user_difficulty_found (now : Z) (t : UserSkills.table) (u : Z)
    (l : programming_language) (b : bool) (qd : Z) (r : UserSkills.row) (s k : Z) :
  select t u l = Some r ->
  current_difficulty_score r = Some s ->
  current_streak r = Some k ->
  1 <= s <= 100 ->
  (forall r0, In r0 t -> matches u l r0 = true -> increments_fit b r0 = true) ->
  let ns :=
    if b then Z.min 100 (s + (if Z.geb k 3 then 5 else if Z.gtb qd s then 3 else 2))
    else Z.max 1 (s - (if Z.gtb k 0 then 2 else if Z.ltb qd s then 5 else 3)) in
  let nk := if b then k + 1 else 0 in
  update_user_difficulty now t u l b qd =
    Some (map (fun r0 => if matches u l r0 then set_row now b (Some ns) (Some nk) r0 else r0) t,
          Some ns).
Proof.
  intros Hsel Hs Hk Hr Hfit ns nk.
  rewrite (update_user_difficulty_unfold now t u l b qd r s k Hsel Hs Hk Hr).
  assert (Hns : 1 <= ns <= 100).
  { unfold ns; destruct b;
      destruct (Z.geb k 3), (Z.gtb qd s), (Z.gtb k 0), (Z.ltb qd s); lia. }
  assert (Hkf : (negb b || Sql.fits (Some (k + 1))) = true).
  { destruct (find_some _ _ Hsel) as [Hin Hm].
    pose proof (Hfit r Hin Hm) as Hf; unfold increments_fit in Hf; rewrite Hk in Hf.
    destruct b; [|reflexivity].
    apply andb_true_iff in Hf as [Hf _]; apply andb_true_iff in Hf as [Hf _]; exact Hf. }
  cbv zeta; rewrite Hkf.
  rewrite (sql_update_ok _ _ _ (set_row now b (Some ns) (Some nk))); [reflexivity|].
  intros r0 Hin Hm; pose proof (Hfit r0 Hin Hm) as Hf; unfold increments_fit in Hf.
  apply andb_true_iff in Hf as [Hf H2]; apply andb_true_iff in Hf as [_ H1].
  split; [exact (set_clause_fit now b _ _ r0 H1 H2)|].
  apply (valid_current_difficulty_range _ ns); [reflexivity|exact Hns].
Qed.

(** Conversely, when [update_user_difficulty] on such a row succeeds, the
    new table and result are the ones above. *)
Lemma update_user_difficulty_found_inv (now : Z) (t t' : UserSkills.table) (u : Z)
    (l : programming_language) (b : bool) (qd : Z) (r : UserSkills.row) (s k : Z)
    (v : Sql.int) :
  select t u l = Some r ->
  current_difficulty_score r = Some s ->
  current_streak r = Some k ->
  1 <= s <= 100 ->
  update_user_difficulty now t u l b qd = Some (t', v) ->
  let ns :=
    if b then Z.min 100 (s + (if Z.geb k 3 then 5 else if Z.gtb qd s then 3 else 2))
    else Z.max 1 (s - (if Z.gtb k 0 then 2 else if Z.ltb qd s then 5 else 3)) in
  let nk := if b then k + 1 else 0 in
  t' = map (fun r0 => if matches u l r0 then set_row now b (Some ns) (Some nk) r0 else r0) t /\
  v = Some ns.
Proof.
  intros Hsel Hs Hk Hr H ns nk.
  rewrite (update_user_difficulty_unfold now t u l b qd r s k Hsel Hs Hk Hr) in H.
  cbv zeta in H; fold ns nk in H.
  destruct (negb b || Sql.fits (Some (k + 1))); [|discriminate].
  destruct (Sql.update _ _ _ t) as [t1|] eqn:E; [|discriminate].
  injection H as <- <-; split; [|reflexivity].
  apply (sql_update_map _ _ _ _ _ _ (fun r0 r0' _ Hf => set_clause_some now b _ _ r0 r0' Hf) E).
Qed.

(** The row [select] finds after [update_user_difficulty] on a found row. *)
Lemma update_user_difficulty_found_select (now : Z) (t : UserSkills.table) (u : Z)
    (l : programming_language) (b : bool) (qd : Z) (r : UserSkills.row) (s k : Z) :
  select t u l = Some r ->
  current_difficulty_score r = Some s ->
  current_streak r = Some k ->
  1 <= s <= 100 ->
  (forall r0, In r0 t -> matches u l r0 = true -> increments_fit b r0 = true) ->
  let ns :=
    if b then Z.min 100 (s + (if Z.geb k 3 then 5 else if Z.gtb qd s then 3 else 2))
    else Z.max 1 (s - (if Z.gtb k 0 then 2 else if Z.ltb qd s then 5 else 3)) in
  let nk := if b then k + 1 else 0 in
  exists t',
    update_user_difficulty now t u l b qd = Some (t', Some ns) /\
    select t' u l = Some (set_row now b (Some ns) (Some nk) r).
Proof.
  intros Hsel Hs Hk Hr Hfit ns nk.
  eexists; split; [exact (update_user_difficulty_found now t u l b qd r s k Hsel Hs Hk Hr Hfit)|].
  unfold select; rewrite find_map_update.
  - unfold select in Hsel; rewrite Hsel; reflexivity.
  - intros r0 H0; apply matches_set; exact H0.
Qed.

(** The same when [r] is the pair's only row, as [UNIQUE(user_id,
    language)] guarantees: it stays the only one. *)
Lemma update_user_difficulty_unique (now : Z) (t : UserSkills.table) (u : Z)
    (l : programming_language) (b : bool) (qd : Z) (r : UserSkills.row) (s k : Z) :
  filter (matches u l) t = [r] ->
  current_difficulty_score r = Some s ->
  current_streak r = Some k ->
  1 <= s <= 100 ->
  increments_fit b r = true ->
  let ns :=
    if b then Z.min 100 (s + (if Z.geb k 3 then 5 else if Z.gtb qd s then 3 else 2))
    else Z.max 1 (s - (if Z.gtb k 0 then 2 else if Z.ltb qd s then 5 else 3)) in
  let nk := if b then k + 1 else 0 in
  exists t',
    update_user_difficulty now t u l b qd = Some (t', Some ns) /\
    filter (matches u l) t' = [set_row now b (Some ns) (Some nk) r].
Proof.
  intros Hf Hs Hk Hr Hfit ns nk.
  assert (Hsel : select t u l = Some r) by exact (find_filter_single _ _ _ Hf).
  eexists; split.
  - apply (update_user_difficulty_found now t u l b qd r s k Hsel Hs Hk Hr).
    intros r0 Hin Hm; rewrite (filter_single_in _ _ _ _ Hf Hin Hm); exact Hfit.
  - rewrite filter_map_update, Hf; [reflexivity|].
    intros r0 H0; apply matches_set; exact H0.
Qed.

(** [update_user_difficulty] for a pair without a row: the table is left
    as it is; the NULL score makes [LEAST(100, NULL)] return 100 and
    [GREATEST(1, NULL)] return 1. *)
Lemma update_user_difficulty_missing (now : Z) (t : UserSkills.table) (u : Z)
    (l : programming_language) (b : bool) (qd : Z) :
  select t u l = None ->
  update_user_difficulty now t u l b qd = Some (t, Some (if b then 100 else 1)).
Proof.
  intros Hsel; unfold update_user_difficulty; rewrite Hsel.
  destruct b; cbn beta iota; unfold adjust; cbn;
    rewrite sql_update_none by exact Hsel; reflexivity.
Qed.

(** ** Skill tracker: the transition *)

(** C1 refuted: at streak 2147483647 the int4 increment
    [v_current_streak + 1] raises "integer out of range", so a right
    answer from a state with score in [1,100] and streak >= 0 does not
    always give the new score and streak + 1. *)
Lemma correct_answer_streak_overflow :
  ~ (forall now t u l qd r s k,
       select t u l = Some r ->
       current_difficulty_score r = Some s ->
       current_streak r = Some k ->
       1 <= s <= 100 -> 0 <= k -> 1 <= qd <= 100 ->
       exists t' r',
         update_user_difficulty now t u l true qd = Some (t', current_difficulty_score r') /\
         select t' u l = Some r' /\
         current_difficulty_score r' =
           Some (Z.min 100 (s + (if 3 <=? k then 5 else if s <? qd then 3 else 2))) /\
         current_streak r' = Some (k + 1)).
Proof.
  intros H.
  destruct (H 5 [sample_skill 50 Sql.int4_max] 7 python 50 (sample_skill 50 Sql.int4_max)
              50 Sql.int4_max eq_refl eq_refl eq_refl ltac:(lia)
              ltac:(unfold Sql.int4_max; lia) ltac:(lia))
    as (t' & r' & Hu & _).
  vm_compute in Hu; discriminate.
Qed.

(** C1 (amended): for a skill state with score in [1,100] and streak >= 0
    whose int4 increments stay in range (the streak and both counters of
    the pair's rows below 2147483647) and a question difficulty in
    [1,100], a correct answer adds +5 when streak >= 3, else +3 when the
    difficulty exceeds the score, else +2, clamps the result at 100, and
    sets the streak to streak + 1. *)
Theorem correct_answer_transition (now : Z) (t : UserSkills.table) (u : Z)
    (l : programming_language) (qd : Z) (r : UserSkills.row) (s k : Z) :
  select t u l = Some r ->
  current_difficulty_score r = Some s ->
  current_streak r = Some k ->
  1 <= s <= 100 -> 0 <= k -> 1 <= qd <= 100 ->
  (forall r0, In r0 t -> matches u l r0 = true -> increments_fit true r0 = true) ->
  exists t' r',
    update_user_difficulty now t u l true qd = Some (t', current_difficulty_score r') /\
    select t' u l = Some r' /\
    current_difficulty_score r' =
      Some (Z.min 100 (s + (if 3 <=? k then 5 else if s <? qd then 3 else 2))) /\
    current_streak r' = Some (k + 1).
Proof.
  intros Hsel Hs Hk Hr Hk0 Hqd Hfit.
  destruct (update_user_difficulty_found_select now t u l true qd r s k Hsel Hs Hk Hr Hfit)
    as [t' [Hu Hsel']].
  exists t'; eexists; split;
    [| split; [exact Hsel'| simpl; rewrite Z.geb_leb, Z.gtb_ltb; split; reflexivity]].
  exact Hu.
Qed.

(** C2 refuted: at [total_questions_attempted = 2147483647] the int4
    increment of the [UPDATE] raises, so a wrong answer from a state with
    score in [1,100] and streak >= 0 does not always give the new score
    and streak 0. *)
Lemma wrong_answer_counter_overflow :
  ~ (forall now t u l qd r s k,
       select t u l = Some r ->
       current_difficulty_score r = Some s ->
       current_streak r = Some k ->
       1 <= s <= 100 -> 0 <= k -> 1 <= qd <= 100 ->
       exists t' r',
         update_user_difficulty now t u l false qd = Some (t', current_difficulty_score r') /\
         select t' u l = Some r' /\
         current_difficulty_score r' =
           Some (Z.max 1 (s - (if 0 <? k then 2 else if qd <? s then 5 else 3))) /\
         current_streak r' = Some 0).
Proof.
  intros H.
  destruct (H 5 [UserSkills.mk_row 3 7 python (Some 50) (Some Sql.int4_max) (Some 2)
                   (Some 0) (Some 0) None (Some 0)] 7 python 50
              (UserSkills.mk_row 3 7 python (Some 50) (Some Sql.int4_max) (Some 2)
                 (Some 0) (Some 0) None (Some 0))
              50 0 eq_refl eq_refl eq_refl ltac:(lia) ltac:(lia) ltac:(lia))
    as (t' & r' & Hu & _).
  vm_compute in Hu; discriminate.
Qed.

(** C2 (amended): for a skill state with score in [1,100] and streak >= 0
    whose int4 increments stay in range (both counters of the pair's rows
    below 2147483647) and a question difficulty in [1,100], a wrong answer
    subtracts 2 when streak > 0, else 5 when the difficulty is below the
    score, else 3, clamps the result at 1, and resets the streak to 0. *)
Theorem wrong_answer_transition (now : Z) (t : UserSkills.table) (u : Z)
    (l : programming_language) (qd : Z) (r : UserSkills.row) (s k : Z) :
  select t u l = Some r ->
  current_difficulty_score r = Some s ->
  current_streak r = Some k ->
  1 <= s <= 100 -> 0 <= k -> 1 <= qd <= 100 ->
  (forall r0, In r0 t -> matches u l r0 = true -> increments_fit false r0 = true) ->
  exists t' r',
    update_user_difficulty now t u l false qd = Some (t', current_difficulty_score r') /\
    select t' u l = Some r' /\
    current_difficulty_score r' =
      Some (Z.max 1 (s - (if 0 <? k then 2 else if qd <? s then 5 else 3))) /\
    current_streak r' = Some 0.
Proof.
  intros Hsel Hs Hk Hr Hk0 Hqd Hfit.
  destruct (update_user_difficulty_found_select now t u l false qd r s k Hsel Hs Hk Hr Hfit)
    as [t' [Hu Hsel']].
  exists t'; eexists; split;
    [| split; [exact Hsel'| simpl; rewrite Z.gtb_ltb; split; reflexivity]].
  exact Hu.
Qed.

(** C3 refuted: when an int4 increment raises (here the attempt counter
    at 2147483647) the transition yields no score at all. *)
Lemma transition_score_overflow :
  ~ (forall now t u l b qd r s k,
       select t u l = Some r ->
       current_difficulty_score r = Some s ->
       current_streak r = Some k ->
       1 <= s <= 100 -> 1 <= qd <= 100 ->
       exists t' r' s',
         update_user_difficulty now t u l b qd = Some (t', Some s') /\
         select t' u l = Some r' /\
         current_difficulty_score r' = Some s' /\
         (b = true -> s <= s' <= 100) /\
         (b = false -> 1 <= s' <= s)).
Proof.
  intros H.
  destruct (H 5 [UserSkills.mk_row 3 7 python (Some 50) (Some Sql.int4_max) (Some 2)
                   (Some 0) (Some 0) None (Some 0)] 7 python false 50
              (UserSkills.mk_row 3 7 python (Some 50) (Some Sql.int4_max) (Some 2)
                 (Some 0) (Some 0) None (Some 0))
              50 0 eq_refl eq_refl eq_refl ltac:(lia) ltac:(lia))
    as (t' & r' & s' & Hu & _).
  vm_compute in Hu; discriminate.
Qed.

(** C3 (amended): for a skill state with score in [1,100] whose int4
    increments stay in range and a question difficulty in [1,100], a
    correct answer yields a score between the old score and 100, and a
    wrong answer a score between 1 and the old score. *)
Theorem transition_score_monotone (now : Z) (t : UserSkills.table) (u : Z)
    (l : programming_language) (b : bool) (qd : Z) (r : UserSkills.row) (s k : Z) :
  select t u l = Some r ->
  current_difficulty_score r = Some s ->
  current_streak r = Some k ->
  1 <= s <= 100 -> 1 <= qd <= 100 ->
  (forall r0, In r0 t -> matches u l r0 = true -> increments_fit b r0 = true) ->
  exists t' r' s',
    update_user_difficulty now t u l b qd = Some (t', Some s') /\
    select t' u l = Some r' /\
    current_difficulty_score r' = Some s' /\
    (b = true -> s <= s' <= 100) /\
    (b = false -> 1 <= s' <= s).
Proof.
  intros Hsel Hs Hk Hr Hqd Hfit.
  destruct (update_user_difficulty_found_select now t u l b qd r s k Hsel Hs Hk Hr Hfit)
    as [t' [Hu Hsel']].
  do 3 eexists; split; [exact Hu|]; split; [exact Hsel'|]; split; [reflexivity|].
  split; intros ->;
    destruct (Z.geb k 3), (Z.gtb qd s), (Z.gtb k 0), (Z.ltb qd s); lia.
Qed.

Lemma find_app_none {R} (p : R -> bool) (t : list R) (r : R) :
  find p t = None -> p r = true -> find p (t ++ [r]) = Some r.
Proof.
  intros H Hr; induction t as [|a t IH]; simpl.
  - rewrite Hr; reflexivity.
  - simpl in H; destruct (p a); [discriminate|exact (IH H)].
Qed.

Lemma matches_refl (u : Z) (l : programming_language) (r : UserSkills.row) :
  UserSkills.user_id r = u -> UserSkills.language r = l -> matches u l r = true.
Proof.
  intros <- <-; unfold matches; rewrite Z.eqb_refl; simpl.
  destruct (UserSkills.language r); reflexivity.
Qed.

(** The row invariant kept by both SQL functions: a non-NULL score in
    [1,100] and a non-NULL streak. *)
Lemma update_user_difficulty_inv (now : Z) (t t' : UserSkills.table) (u : Z)
    (l : programming_language) (b : bool) (qd : Z) (v : Sql.int) :
  Forall (fun r => (exists s, current_difficulty_score r = Some s /\ 1 <= s <= 100) /\
                   (exists k, current_streak r = Some k)) t ->
  update_user_difficulty now t u l b qd = Some (t', v) ->
  Forall (fun r => (exists s, current_difficulty_score r = Some s /\ 1 <= s <= 100) /\
                   (exists k, current_streak r = Some k)) t'.
Proof.
  intros Hinv Hu.
  destruct (select t u l) as [r|] eqn:Hsel.
  - assert (Hr : In r t) by (apply (find_some _ _ Hsel)).
    destruct (proj1 (Forall_forall _ t) Hinv r Hr) as [[s [Hs Hsr]] [k Hk]].
    destruct (update_user_difficulty_found_inv now t t' u l b qd r s k v Hsel Hs Hk Hsr Hu)
      as [-> _].
    apply Forall_map, Forall_forall; intros r0 Hr0.
    destruct (matches u l r0); simpl.
    + split; [eexists; split; [reflexivity|]|eexists; reflexivity].
      destruct b; destruct (Z.geb k 3), (Z.gtb qd s), (Z.gtb k 0), (Z.ltb qd s); lia.
    + exact (proj1 (Forall_forall _ t) Hinv r0 Hr0).
  - rewrite (update_user_difficulty_missing now t u l b qd Hsel) in Hu.
    injection Hu as <- _; exact Hinv.
Qed.

Lemma get_or_create_user_skill_inv (fresh now : Z) (t t' : UserSkills.table) (u : Z)
    (l : programming_language) (r : UserSkills.row) :
  Forall (fun r => (exists s, current_difficulty_score r = Some s /\ 1 <= s <= 100) /\
                   (exists k, current_streak r = Some k)) t ->
  get_or_create_user_skill fresh now t u l = Some (t', r) ->
  Forall (fun r => (exists s, current_difficulty_score r = Some s /\ 1 <= s <= 100) /\
                   (exists k, current_streak r = Some k)) t'.
Proof.
  intros Hinv Hg; unfold get_or_create_user_skill in Hg.
  destruct (select t u l); [injection Hg as <- _; exact Hinv|].
  unfold insert_default in Hg.
  destruct (_ || _); [discriminate|injection Hg as <- _].
  apply Forall_app; split; [exact Hinv|].
  constructor; [|constructor]; simpl.
  split; [exists 10; split; [reflexivity|lia]|exists 0; reflexivity].
Qed.

(** C4: the score invariant 1 <= score <= 100 holds for the lazily created
    initial state (score 10) and for every row of every skill table
    reachable through [get_or_create_user_skill] and
    [update_user_difficulty] (any verdict, difficulty in [1,100]). *)
Theorem score_invariant_reachable :
  (forall fresh now t u l t' r,
     select t u l = None ->
     get_or_create_user_skill fresh now t u l = Some (t', r) ->
     current_difficulty_score r = Some 10) /\
  (forall t, skills_reachable t ->
     Forall (fun r => exists s, current_difficulty_score r = Some s /\ 1 <= s <= 100) t).
Proof.
  split.
  - intros fresh now t u l t' r Hsel Hg; unfold get_or_create_user_skill in Hg.
    rewrite Hsel in Hg; unfold insert_default in Hg.
    destruct (_ || _); [discriminate|injection Hg as _ <-; reflexivity].
  - intros t Hreach.
    assert (H : Forall (fun r => (exists s, current_difficulty_score r = Some s /\
                                            1 <= s <= 100) /\
                                 (exists k, current_streak r = Some k)) t).
    { induction Hreach as [| t t' fresh now u l r _ IH Hg | t t' now u l b qd v _ IH _ Hu].
      - constructor.
      - exact (get_or_create_user_skill_inv fresh now t t' u l r IH Hg).
      - exact (update_user_difficulty_inv now t t' u l b qd v IH Hu). }
    eapply Forall_impl; [|exact H]; intros r [Hs _]; exact Hs.
Qed.

(** One successful step of [update_user_difficulty] on a found row whose
    columns are all non-NULL, in the form the sequence argument uses. *)
Lemma update_user_difficulty_step (now : Z) (t t1 : UserSkills.table) (u : Z)
    (l : programming_language) (b : bool) (qd : Z) (r : UserSkills.row)
    (s k bs ta tc : Z) (v : Sql.int) :
  select t u l = Some r ->
  current_difficulty_score r = Some s -> 1 <= s <= 100 ->
  current_streak r = Some k -> best_streak r = Some bs ->
  total_questions_attempted r = Some ta -> correct_answers r = Some tc ->
  update_user_difficulty now t u l b qd = Some (t1, v) ->
  exists r' s' k',
    select t1 u l = Some r' /\
    current_difficulty_score r' = Some s' /\ 1 <= s' <= 100 /\
    current_streak r' = Some k' /\
    best_streak r' = Some (Z.max bs k') /\
    total_questions_attempted r' = Some (ta + 1) /\
    correct_answers r' = Some (tc + if b then 1 else 0) /\
    last_practiced_at r' = Some now.
Proof.
  intros Hsel Hs Hsr Hk Hbs Hta Htc Hu.
  destruct (update_user_difficulty_found_inv now t t1 u l b qd r s k v Hsel Hs Hk Hsr Hu)
    as [-> _].
  unfold select; rewrite find_map_update by (intros r0 H0; apply matches_set; exact H0).
  unfold select in Hsel; rewrite Hsel; simpl.
  unfold set_row; rewrite Hbs, Hta, Htc; simpl.
  do 3 eexists; split; [reflexivity|]; split; [reflexivity|]; split;
    [destruct b; destruct (Z.geb k 3), (Z.gtb qd s), (Z.gtb k 0), (Z.ltb qd s); lia|].
  repeat split.
Qed.

(** C5 refuted: at [total_questions_attempted = 2147483647] the int4
    increment raises and the call changes nothing, so the attempt
    counter does not always grow by 1. *)
Lemma transition_counters_overflow :
  ~ (forall t u l r s k bs ta tc,
       select t u l = Some r ->
       current_difficulty_score r = Some s -> 1 <= s <= 100 ->
       current_streak r = Some k -> best_streak r = Some bs ->
       total_questions_attempted r = Some ta -> correct_answers r = Some tc ->
       forall now b qd,
         exists t' v r' k',
           update_user_difficulty now t u l b qd = Some (t', v) /\
           select t' u l = Some r' /\
           current_streak r' = Some k' /\
           best_streak r' = Some (Z.max bs k') /\
           total_questions_attempted r' = Some (ta + 1) /\
           correct_answers r' = Some (tc + if b then 1 else 0) /\
           last_practiced_at r' = Some now).
Proof.
  intros H.
  destruct (H [UserSkills.mk_row 3 7 python (Some 50) (Some Sql.int4_max) (Some 2)
                 (Some 0) (Some 0) None (Some 0)] 7 python
              (UserSkills.mk_row 3 7 python (Some 50) (Some Sql.int4_max) (Some 2)
                 (Some 0) (Some 0) None (Some 0))
              50 0 0 Sql.int4_max 2 eq_refl eq_refl ltac:(lia) eq_refl eq_refl eq_refl eq_refl
              5 false 50)
    as (t' & v & r' & k' & Hu & _).
  vm_compute in Hu; discriminate.
Qed.

(** C5 (amended): after every [update_user_difficulty] on a row with
    non-NULL columns whose int4 increments stay in range,
    [best_streak = max(old best_streak, new streak)],
    [total_questions_attempted] grows by 1, [correct_answers] by 1 exactly
    when the answer was correct, and [last_practiced_at] is set to now;
    along any sequence of judged answers (a call that raises leaving the
    table as it was), best streak and both counters never decrease. *)
Theorem transition_counters (t : UserSkills.table) (u : Z)
    (l : programming_language) (r : UserSkills.row) (s k bs ta tc : Z) :
  select t u l = Some r ->
  current_difficulty_score r = Some s -> 1 <= s <= 100 ->
  current_streak r = Some k -> best_streak r = Some bs ->
  total_questions_attempted r = Some ta -> correct_answers r = Some tc ->
  (forall now b qd,
     (forall r0, In r0 t -> matches u l r0 = true -> increments_fit b r0 = true) ->
     exists t' v r' k',
       update_user_difficulty now t u l b qd = Some (t', v) /\
       select t' u l = Some r' /\
       current_streak r' = Some k' /\
       best_streak r' = Some (Z.max bs k') /\
       total_questions_attempted r' = Some (ta + 1) /\
       correct_answers r' = Some (tc + if b then 1 else 0) /\
       last_practiced_at r' = Some now) /\
  (forall steps,
     exists r' bs' ta' tc',
       select (run_answers t u l steps) u l = Some r' /\
       best_streak r' = Some bs' /\ bs <= bs' /\
       total_questions_attempted r' = Some ta' /\ ta <= ta' /\
       correct_answers r' = Some tc' /\ tc <= tc').
Proof.
  intros Hsel Hs Hsr Hk Hbs Hta Htc; split.
  - intros now b qd Hfit.
    pose proof (update_user_difficulty_found now t u l b qd r s k Hsel Hs Hk Hsr Hfit) as Hu.
    cbv zeta in Hu.
    destruct (update_user_difficulty_step now t _ u l b qd r s k bs ta tc _
                Hsel Hs Hsr Hk Hbs Hta Htc Hu)
      as (r' & s' & k' & Hsel' & _ & _ & Hk' & Hbs' & Hta' & Htc' & Hlp).
    do 2 eexists; exists r', k'; split; [exact Hu|]; repeat split; assumption.
  - intros steps; revert t r s k bs ta tc Hsel Hs Hsr Hk Hbs Hta Htc.
    induction steps as [|[[now b] qd] rest IH];
      intros t r s k bs ta tc Hsel Hs Hsr Hk Hbs Hta Htc; simpl.
    + exists r, bs, ta, tc; repeat split; try assumption; lia.
    + destruct (update_user_difficulty now t u l b qd) as [[t1 v]|] eqn:Hu.
      * destruct (update_user_difficulty_step now t t1 u l b qd r s k bs ta tc v
                    Hsel Hs Hsr Hk Hbs Hta Htc Hu)
          as (r' & s' & k' & Hsel' & Hs' & Hsr' & Hk' & Hbs' & Hta' & Htc' & _).
        destruct (IH t1 r' s' k' (Z.max bs k') (ta + 1) (tc + if b then 1 else 0)
                    Hsel' Hs' Hsr' Hk' Hbs' Hta' Htc')
          as (r'' & bs'' & ta'' & tc'' & Hsel'' & Hb'' & Hle1 & Ha'' & Hle2 & Hc'' & Hle3).
        exists r'', bs'', ta'', tc''.
        repeat split; try assumption; destruct b; lia.
      * exact (IH t r s k bs ta tc Hsel Hs Hsr Hk Hbs Hta Htc).
Qed.

Lemma find_none_existsb {R} (p : R -> bool) (t : list R) :
  find p t = None -> existsb p t = false.
Proof.
  induction t as [|a t IH]; simpl; [reflexivity|].
  destruct (p a); [discriminate|exact IH].
Qed.

(** [get_or_create_user_skill] for a pair without a row inserts the
    default row and returns it. *)
Lemma get_or_create_user_skill_missing (fresh now : Z) (t : UserSkills.table) (u : Z)
    (l : programming_language) :
  select t u l = None ->
  get_or_create_user_skill fresh now t u l =
    Some (t ++ [UserSkills.mk_row fresh u l (Some 10) (Some 0) (Some 0) (Some 0) (Some 0)
                  None (Some now)],
          UserSkills.mk_row fresh u l (Some 10) (Some 0) (Some 0) (Some 0) (Some 0)
            None (Some now)).
Proof.
  intros Hsel; unfold get_or_create_user_skill; rewrite Hsel.
  unfold insert_default; unfold select in Hsel.
  rewrite (find_none_existsb _ _ Hsel); reflexivity.
Qed.

(** ** Skill tracker: lazy initialisation *)

(** C8: for a (user, language) pair without a skill row,
    [get_or_create_user_skill] succeeds and creates the row with score 10,
    streak 0, best streak 0 and both counters 0; a second call for the
    same pair returns the same row and leaves the table as it is. *)
Theorem get_or_create_default_idempotent :
  (forall fresh now t u l,
     select t u l = None ->
     exists t' r,
       get_or_create_user_skill fresh now t u l = Some (t', r) /\
       current_difficulty_score r = Some 10 /\ current_streak r = Some 0 /\
       best_streak r = Some 0 /\ total_questions_attempted r = Some 0 /\
       correct_answers r = Some 0 /\ select t' u l = Some r) /\
  (forall fresh now fresh' now' t u l t' r,
     get_or_create_user_skill fresh now t u l = Some (t', r) ->
     get_or_create_user_skill fresh' now' t' u l = Some (t', r)).
Proof.
  split.
  - intros fresh now t u l Hsel.
    rewrite (get_or_create_user_skill_missing fresh now t u l Hsel).
    do 2 eexists; split; [reflexivity|]; repeat split.
    unfold select; apply find_app_none; [exact Hsel|].
    apply matches_refl; reflexivity.
  - intros fresh now fresh' now' t u l t' r Hg.
    destruct (select t u l) as [r0|] eqn:Hsel.
    + unfold get_or_create_user_skill in *; rewrite Hsel in Hg.
      injection Hg as <- <-; rewrite Hsel; reflexivity.
    + rewrite (get_or_create_user_skill_missing fresh now t u l Hsel) in Hg.
      injection Hg as <- <-.
      unfold get_or_create_user_skill.
      replace (select _ u l) with
        (Some (UserSkills.mk_row fresh u l (Some 10) (Some 0) (Some 0) (Some 0) (Some 0)
                 None (Some now))); [reflexivity|].
      symmetry; unfold select; apply find_app_none; [exact Hsel|].
      apply matches_refl; reflexivity.
Qed.

(** C10: [update_user_difficulty] does no lazy initialisation: for a pair
    without a skill row it leaves the table unchanged, so [check-answer]
    creates no skill row; the default row is created by
    [get_or_create_user_skill], which [generate-question] calls. *)
Theorem update_no_lazy_init :
  (forall now t u l b qd,
     select t u l = None ->
     exists v, update_user_difficulty now t u l b qd = Some (t, v)) /\
  (forall now d userId questionId sessionId b l qd d',
     check_answer_rpc_args (questions d) questionId = Some (l, qd) ->
     select (skills d) userId l = None ->
     check_answer now d userId questionId sessionId b = Some d' ->
     skills d' = skills d /\ select (skills d') userId l = None) /\
  (forall fresh_skill fresh_q now d userId l sessionId llm,
     select (skills d) userId l = None ->
     exists r,
       select (skills (fst (generate_question fresh_skill fresh_q now d userId l
                              sessionId llm))) userId l = Some r /\
       current_difficulty_score r = Some 10 /\ current_streak r = Some 0).
Proof.
  split; [|split].
  - intros now t u l b qd Hsel; eexists.
    exact (update_user_difficulty_missing now t u l b qd Hsel).
  - intros now d userId questionId sessionId b l qd d' Hargs Hsel Hc.
    unfold check_answer in Hc; rewrite Hargs in Hc.
    rewrite (update_user_difficulty_missing now (skills d) userId l b qd Hsel) in Hc.
    injection Hc as <-; split; [reflexivity|exact Hsel].
  - intros fresh_skill fresh_q now d userId l sessionId llm Hsel.
    assert (Hnew : select (skills d ++
                             [UserSkills.mk_row fresh_skill userId l (Some 10) (Some 0)
                                (Some 0) (Some 0) (Some 0) None (Some now)]) userId l =
                   Some (UserSkills.mk_row fresh_skill userId l (Some 10) (Some 0)
                           (Some 0) (Some 0) (Some 0) None (Some now))).
    { unfold select; apply find_app_none; [exact Hsel|]; apply matches_refl; reflexivity. }
    eexists; unfold generate_question.
    rewrite (get_or_create_user_skill_missing fresh_skill now (skills d) userId l Hsel).
    destruct (question_schema_parse llm) as [g|];
      [destruct (insert_question fresh_q (questions d) g l userId) as [[qt q]|]|];
      simpl; (split; [exact Hnew|split; reflexivity]).
Qed.

(** ** Question difficulty reaching the transition *)

Lemma question_schema_parse_range (g g' : generated_question) :
  question_schema_parse g = Some g' -> g' = g /\ 1 <= difficulty_score g <= 100.
Proof.
  unfold question_schema_parse.
  destruct (_ && _ && _ && _ && _ && _ && (1 <=? difficulty_score g)) eqn:E1;
    [|discriminate].
  destruct (difficulty_score g <=? 100) eqn:E2; [|rewrite andb_false_r; discriminate].
  rewrite andb_true_r; intros H; injection H as <-; split; [reflexivity|].
  apply andb_true_iff in E1 as [_ E1]; apply Z.leb_le in E1; apply Z.leb_le in E2; lia.
Qed.

Lemma insert_question_valid (fresh : Z) (qt qt' : Questions.table) (g : generated_question)
    (l : programming_language) (uid : Z) (q : Questions.row) :
  Forall (fun r => valid_difficulty_score r = true) qt ->
  insert_question fresh qt g l uid = Some (qt', q) ->
  Forall (fun r => valid_difficulty_score r = true) qt'.
Proof.
  intros Hv Hi; unfold insert_question in Hi.
  destruct (valid_difficulty_score _) eqn:E; [|discriminate].
  injection Hi as <- _; apply Forall_app; split; [exact Hv|constructor; [exact E|constructor]].
Qed.

Lemma fetch_in (qt : Questions.table) (qid : Z) (q : Questions.row) :
  fetch qt qid = Some q -> In q qt.
Proof.
  unfold fetch; destruct (filter _ qt) as [|q0 [|]] eqn:E; try discriminate.
  intros H; injection H as <-.
  assert (Hin : In q0 (filter (fun r => Questions.id r =? qid) qt)) by (rewrite E; left; reflexivity).
  apply filter_In in Hin; exact (proj1 Hin).
Qed.

(** C6 refuted: no LLM-supplied [difficulty_score] outside [1,100] is
    saved with a generated question, so none reaches
    [update_user_difficulty] through [check-answer]. *)
Lemma out_of_range_difficulty_not_fed :
  ~ (exists llm fresh_skill fresh_q now d userId l sessionId d' q lq,
       (difficulty_score llm < 1 \/ 100 < difficulty_score llm) /\
       generate_question fresh_skill fresh_q now d userId l sessionId llm = (d', Some q) /\
       check_answer_rpc_args (questions d') (Questions.id q) = Some (lq, difficulty_score llm)).
Proof.
  intros (llm & fresh_skill & fresh_q & now & d & userId & l & sessionId & d' & q & lq &
          Hout & Hg & _).
  unfold generate_question in Hg.
  destruct (get_or_create_user_skill _ _ _ _ _) as [[sk ?]|]; [|discriminate].
  destruct (question_schema_parse llm) as [g|] eqn:Hp; [|discriminate].
  apply question_schema_parse_range in Hp as [_ Hr]; lia.
Qed.

(** C6 (amended): an LLM-supplied [difficulty_score] outside [1,100] is
    rejected, not clamped: [QuestionSchema] makes [generateQuestion] throw,
    so no question is saved; every saved question satisfies
    [valid_difficulty_score]; hence every difficulty [check-answer]
    passes to [update_user_difficulty] lies in [1,100]. *)
Theorem llm_difficulty_validated :
  (forall fresh_skill fresh_q now d userId l sessionId llm,
     (difficulty_score llm < 1 \/ 100 < difficulty_score llm) ->
     snd (generate_question fresh_skill fresh_q now d userId l sessionId llm) = None /\
     questions (fst (generate_question fresh_skill fresh_q now d userId l sessionId llm)) =
       questions d) /\
  (forall fresh_skill fresh_q now d userId l sessionId llm,
     Forall (fun r => valid_difficulty_score r = true) (questions d) ->
     Forall (fun r => valid_difficulty_score r = true)
       (questions (fst (generate_question fresh_skill fresh_q now d userId l sessionId llm)))) /\
  (forall qt questionId l qd,
     Forall (fun r => valid_difficulty_score r = true) qt ->
     check_answer_rpc_args qt questionId = Some (l, qd) ->
     1 <= qd <= 100).
Proof.
  split; [|split].
  - intros fresh_skill fresh_q now d userId l sessionId llm Hout.
    unfold generate_question.
    destruct (get_or_create_user_skill _ _ _ _ _) as [[sk ?]|]; [|split; reflexivity].
    destruct (question_schema_parse llm) as [g|] eqn:Hp; [|split; reflexivity].
    apply question_schema_parse_range in Hp as [_ Hr]; lia.
  - intros fresh_skill fresh_q now d userId l sessionId llm Hv.
    unfold generate_question.
    destruct (get_or_create_user_skill _ _ _ _ _) as [[sk ?]|]; simpl; [|exact Hv].
    destruct (question_schema_parse llm) as [g|]; simpl; [|exact Hv].
    destruct (insert_question fresh_q (questions d) g l userId) as [[qt q]|] eqn:Hi;
      simpl; [|exact Hv].
    exact (insert_question_valid _ _ _ _ _ _ _ Hv Hi).
  - intros qt questionId l qd Hv Ha; unfold check_answer_rpc_args in Ha.
    destruct (fetch qt questionId) as [q|] eqn:Hf; [|discriminate].
    injection Ha as _ <-.
    pose proof (proj1 (Forall_forall _ qt) Hv q (fetch_in _ _ _ Hf)) as Hq.
    unfold valid_difficulty_score in Hq; apply andb_true_iff in Hq as [H1 H2].
    apply Z.leb_le in H1; apply Z.leb_le in H2; lia.
Qed.

(** ** Session recorder *)

Lemma apply_body_started_at (body : list (session_column * js_value)) (r r' : Sessions.row) :
  apply_body body r = Some r' -> started_at r' = started_at r.
Proof.
  unfold apply_body; revert r.
  induction body as [|[c v] body IH]; intros r H; simpl in H.
  - injection H as <-; reflexivity.
  - destruct (set_column r c v) as [r1|] eqn:E.
    + rewrite (IH r1 H); destruct c, v; simpl in E; try discriminate;
        try (match type of E with context [if ?c then _ else _] => destruct c end;
             [|discriminate]);
        injection E as <-; reflexivity.
    + exfalso; clear IH; induction body as [|cv body IH']; simpl in H; [discriminate|].
      exact (IH' H).
Qed.

(** Every PostgREST update of [learning_sessions] keeps the dates
    invariant: [started_at] set and [ended_at], when set, not before it. *)
Lemma patch_dates_inv (single : bool) (sel : Sessions.row -> bool)
    (values : list (session_column * js_value)) (t t' : Sessions.table) :
  Forall (fun r => exists st, started_at r = Some st /\
                              forall e, ended_at r = Some e -> st <= e) t ->
  patch single sel values t = Some t' ->
  Forall (fun r => exists st, started_at r = Some st /\
                              forall e, ended_at r = Some e -> st <= e) t'.
Proof.
  intros Hinv Hp; unfold patch in Hp.
  destruct (json_body values) as [|cv body] eqn:Eb; [injection Hp as <-; exact Hinv|].
  destruct (single && _); [discriminate|].
  revert Hinv Hp; apply map_opt_forall.
  intros x y [st [Hst Hle]] Hf.
  destruct (sel x); [|injection Hf as <-; exists st; split; assumption].
  destruct (apply_body (cv :: body) x) as [x'|] eqn:Ea; [|discriminate].
  destruct (valid_session_dates x') eqn:Ev; [|discriminate].
  injection Hf as <-; exists st; split.
  - rewrite (apply_body_started_at _ _ _ Ea); exact Hst.
  - intros e He; unfold valid_session_dates in Ev; rewrite He in Ev.
    rewrite (apply_body_started_at _ _ _ Ea), Hst in Ev; simpl in Ev.
    destruct (e >=? st) eqn:Ge; [|discriminate]; apply Z.geb_le in Ge; exact Ge.
Qed.

(** A PostgREST update whose body puts an unawaited query builder into a
    column changes nothing: an error if a row is selected, else no row. *)
Lemma patch_query_builder (sel : Sessions.row -> bool) (c : session_column)
    (t : Sessions.table) :
  match patch false sel [(c, JQueryBuilder)] t with Some t' => t' | None => t end = t.
Proof.
  unfold patch; simpl.
  destruct (existsb sel t) eqn:E.
  - apply existsb_exists in E as [x [Hx Ex]].
    rewrite (map_opt_none _ t x Hx); [reflexivity|].
    rewrite Ex; destruct c; reflexivity.
  - rewrite (map_opt_map _ (fun r => r)); [rewrite map_id; reflexivity|].
    intros x Hx; destruct (sel x) eqn:Ex; [|reflexivity].
    exfalso; assert (H : existsb sel t = true)
      by (apply existsb_exists; exists x; split; assumption).
    congruence.
Qed.

(** The session update of [check-answer] writes nothing: with a wrong
    answer the body is empty, with a right one the unawaited query builder
    is refused for the integer column. *)
Lemma check_answer_session_update_id (userId : Z) (sessionId : option Z) (b : bool)
    (t : Sessions.table) :
  check_answer_session_update userId sessionId b t = t.
Proof.
  destruct sessionId as [sid|]; [|reflexivity]; unfold check_answer_session_update.
  destruct b; [apply patch_query_builder|reflexivity].
Qed.

Lemma start_session_inv (fresh now : Z) (t t' : Sessions.table) (uid : Z)
    (l : programming_language) (r : Sessions.row) :
  Forall (fun r => exists st, started_at r = Some st /\
                              forall e, ended_at r = Some e -> st <= e) t ->
  start_session fresh now t uid l = Some (t', r) ->
  Forall (fun r => exists st, started_at r = Some st /\
                              forall e, ended_at r = Some e -> st <= e) t'.
Proof.
  intros Hinv Hs; unfold start_session in Hs; simpl in Hs.
  injection Hs as <- _; apply Forall_app; split; [exact Hinv|].
  constructor; [|constructor]; exists now; split; [reflexivity|discriminate].
Qed.

(** C7 refuted: judging an answer in an open session through
    [check-answer] does not add 1 to [questions_attempted]. *)
Lemma check_answer_attempted_not_incremented :
  ~ (exists d',
       check_answer 5
         (mk_db [UserSkills.mk_row 3 7 python (Some 50) (Some 4) (Some 2) (Some 1) (Some 2)
                   None (Some 0)]
                [Sessions.mk_row 1 7 python (Some 0) None (Some 2) (Some 1)]
                [Questions.mk_row 100 "for (;;) {}"%string "What does this do?"%string
                   "It loops"%string medium python ["loops"%string] 7 50])
         7 100 (Some 1) true = Some d' /\
       map questions_attempted (sessions d') = [Some 3]).
Proof.
  intros [d' [Hc Ha]]; vm_compute in Hc; injection Hc as <-.
  vm_compute in Ha; discriminate.
Qed.

(** C7 (amended): when user [uid] generates a question for an open
    session of their own (RLS limits the read and the update to the
    user's rows) whose [questions_attempted] [n] is in [0, 2147483647),
    that column becomes [n + 1], with no other change to the session table
    ([generate-question]); judging the answer ([check-answer]) changes no
    session column other than [questions_correct]. *)
Theorem session_attempt_counters :
  (forall t uid sid cur n,
     filter (visible uid sid) t = [cur] ->
     ended_at cur = None ->
     questions_attempted cur = Some n ->
     0 <= n -> n < Sql.int4_max ->
     generate_question_session_update uid (Some sid) t =
       map (fun r => if visible uid sid r then with_attempted r (n + 1) else r) t) /\
  (forall now d userId questionId sessionId b d',
     check_answer now d userId questionId sessionId b = Some d' ->
     map without_correct (sessions d') = map without_correct (sessions d)).
Proof.
  split.
  - intros t uid sid cur n Hf He Hn Hb0 Hb; unfold generate_question_session_update.
    rewrite Hf, Hn; unfold patch; cbn [json_body filter defined snd js_plus_one].
    rewrite (map_opt_map _ (fun r => if visible uid sid r then with_attempted r (n + 1)
                                     else r)); [reflexivity|].
    intros x Hx; destruct (visible uid sid x) eqn:Ex; [|reflexivity].
    rewrite (filter_single_in _ _ _ _ Hf Hx Ex).
    unfold apply_body, with_attempted; cbn [fold_left fst snd]; unfold set_column.
    rewrite (fits_range (n + 1)) by (unfold Sql.int4_max in Hb; lia).
    unfold valid_session_dates; simpl; rewrite He; reflexivity.
  - intros now d userId questionId sessionId b d' Hc; unfold check_answer in Hc.
    destruct (check_answer_rpc_args (questions d) questionId) as [[l qd]|]; [|discriminate].
    injection Hc as <-; simpl; rewrite check_answer_session_update_id; reflexivity.
Qed.

(** C9: ending an owned session whose [started_at] is [st] sets
    [ended_at] to the supplied time when it is not before [st], and fails
    (the table left as it is) when it is; and in every reachable session
    table each [started_at] is set and each set [ended_at] is not before
    it. *)
Theorem end_session_dates :
  (forall t sid uid now r st,
     filter (fun r0 => (Sessions.id r0 =? sid) && (Sessions.user_id r0 =? uid)) t = [r] ->
     started_at r = Some st ->
     (st <= now ->
        end_session t sid uid now =
          Some (map (fun r0 => if (Sessions.id r0 =? sid) && (Sessions.user_id r0 =? uid)
                               then with_ended r0 now else r0) t)) /\
     (now < st -> end_session t sid uid now = None)) /\
  (forall t, sessions_reachable t ->
     Forall (fun r => exists st, started_at r = Some st /\
                                 forall e, ended_at r = Some e -> st <= e) t).
Proof.
  split.
  - intros t sid uid now r st Hf Hst.
    assert (Hr : In r t /\ (Sessions.id r =? sid) && (Sessions.user_id r =? uid) = true).
    { apply (proj1 (filter_In (fun r0 => (Sessions.id r0 =? sid) &&
                                         (Sessions.user_id r0 =? uid)) r t)).
      rewrite Hf; left; reflexivity. }
    unfold end_session, patch; simpl; unfold count_sel; rewrite Hf; simpl.
    split; intros Hle.
    + rewrite (map_opt_map _ (fun r0 => if (Sessions.id r0 =? sid) && (Sessions.user_id r0 =? uid)
                                        then with_ended r0 now else r0)); [reflexivity|].
      intros x Hx; destruct ((Sessions.id x =? sid) && (Sessions.user_id x =? uid)) eqn:Ex;
        [|reflexivity].
      assert (Hin : In x (filter (fun r0 => (Sessions.id r0 =? sid) &&
                                            (Sessions.user_id r0 =? uid)) t))
        by (apply filter_In; split; assumption).
      rewrite Hf in Hin; destruct Hin as [<-|[]].
      unfold apply_body, with_ended; simpl; unfold valid_session_dates; simpl.
      rewrite Hst; simpl.
      replace (now >=? st) with true by (symmetry; apply Z.geb_le; lia); reflexivity.
    + apply (map_opt_none _ t r (proj1 Hr)); rewrite (proj2 Hr).
      unfold apply_body; simpl; unfold valid_session_dates; simpl; rewrite Hst; simpl.
      replace (now >=? st) with false by (symmetry; rewrite Z.geb_leb; apply Z.leb_gt; lia); reflexivity.
  - intros t Hreach; induction Hreach as
      [| t t' fresh now uid l r _ IH Hs | t t' sid uid now _ IH He | t uid sid _ IH
       | t uid sid b _ IH].
    + constructor.
    + exact (start_session_inv fresh now t t' uid l r IH Hs).
    + exact (patch_dates_inv _ _ _ t t' IH He).
    + unfold generate_question_session_update.
      destruct sid as [sid|]; [|exact IH].
      destruct (filter _ t) as [|cur [|]]; try exact IH.
      destruct (patch _ _ _ t) as [t'|] eqn:Hp; [|exact IH].
      exact (patch_dates_inv _ _ _ t t' IH Hp).
    + rewrite check_answer_session_update_id; exact IH.
Qed.

(** ** Further properties of the code *)

Module LlmFacts.
Import Llm.
Local Open Scope string_scope.

Lemma trim_start_not_ws (c : ascii) (s : string) :
  is_js_whitespace c = false -> trim_start (String c s) = String c s.
Proof. intros H; simpl; rewrite H; reflexivity. Qed.

Lemma trim_end_snoc_ws (s : string) (c : ascii) :
  is_js_whitespace c = true -> trim_end (s ++ String c EmptyString) = trim_end s.
Proof.
  intros Hc; induction s as [|a s IH]; simpl.
  - rewrite Hc; reflexivity.
  - rewrite IH; reflexivity.
Qed.

Lemma trim_end_snoc_not_ws (s : string) (c : ascii) :
  is_js_whitespace c = false ->
  trim_end (s ++ String c EmptyString) = s ++ String c EmptyString.
Proof.
  intros Hc; induction s as [|a s IH]; simpl.
  - rewrite Hc; reflexivity.
  - rewrite IH; destruct s; reflexivity.
Qed.

Lemma trim_start_length (s : string) : (String.length (trim_start s) <= String.length s)%nat.
Proof.
  induction s as [|a s IH]; simpl; [lia|].
  destruct (is_js_whitespace a); simpl; lia.
Qed.

Lemma trim_end_length (s : string) : (String.length (trim_end s) <= String.length s)%nat.
Proof.
  induction s as [|a s IH]; simpl; [lia|].
  destruct (trim_end s) eqn:E.
  - destruct (is_js_whitespace a); simpl; lia.
  - simpl in *; lia.
Qed.

(** A trimmed string starts with a non-whitespace character. *)
Lemma trim_fixed_start (c : ascii) (s : string) :
  trim (String c s) = String c s -> is_js_whitespace c = false.
Proof.
  unfold trim; intros H; simpl in H.
  destruct (is_js_whitespace c) eqn:E; [|reflexivity].
  exfalso; pose proof (trim_end_length (trim_start s)) as H1.
  pose proof (trim_start_length s) as H2.
  rewrite H in H1; simpl in H1; lia.
Qed.

Lemma trim_fixed_trim_end (s : string) : trim s = s -> trim_end s = s.
Proof.
  destruct s as [|c s]; [reflexivity|].
  intros H; pose proof (trim_fixed_start c s H) as Hc.
  unfold trim in H; rewrite trim_start_not_ws in H by exact Hc; exact H.
Qed.

Lemma string_append_assoc (a b c : string) : (a ++ b) ++ c = a ++ (b ++ c).
Proof. induction a as [|x a IH]; simpl; [reflexivity|rewrite IH; reflexivity]. Qed.

Lemma replace_json_fence_cons (c : ascii) (s : string) :
  Ascii.eqb c backtick = false ->
  replace_json_fence (String c s) = String c (replace_json_fence s).
Proof.
  intros Hc.
  destruct s as [|b [|c' [|d [|e [|f [|g r]]]]]]; simpl; rewrite ?Hc; reflexivity.
Qed.

Lemma replace_ticks_cons (c : ascii) (s : string) :
  Ascii.eqb c backtick = false ->
  replace_ticks (String c s) = String c (replace_ticks s).
Proof.
  intros Hc; destruct s as [|b [|c' r]]; simpl; rewrite ?Hc; reflexivity.
Qed.

Lemma replace_json_fence_plain (j s : string) :
  existsb (Ascii.eqb backtick) (list_ascii_of_string j) = false ->
  replace_json_fence (j ++ s) = j ++ replace_json_fence s.
Proof.
  induction j as [|c j IH]; cbn [String.append list_ascii_of_string existsb]; [reflexivity|].
  intros H; apply orb_false_iff in H as [Hc Hj].
  rewrite replace_json_fence_cons by (rewrite Ascii.eqb_sym; exact Hc).
  rewrite (IH Hj); reflexivity.
Qed.

Lemma replace_ticks_plain (j s : string) :
  existsb (Ascii.eqb backtick) (list_ascii_of_string j) = false ->
  replace_ticks (j ++ s) = j ++ replace_ticks s.
Proof.
  induction j as [|c j IH]; cbn [String.append list_ascii_of_string existsb]; [reflexivity|].
  intros H; apply orb_false_iff in H as [Hc Hj].
  rewrite replace_ticks_cons by (rewrite Ascii.eqb_sym; exact Hc).
  rewrite (IH Hj); reflexivity.
Qed.

Lemma trim_snoc_newline (j : string) :
  trim j = j -> trim (j ++ String newline EmptyString) = j.
Proof.
  intros H; destruct j as [|c j'].
  - reflexivity.
  - pose proof (trim_fixed_start c j' H) as Hc.
    unfold trim.
    change (String c j' ++ String newline EmptyString) with (String c (j' ++ String newline EmptyString)).
    rewrite trim_start_not_ws by exact Hc.
    change (String c (j' ++ String newline EmptyString)) with (String c j' ++ String newline EmptyString).
    rewrite (trim_end_snoc_ws (String c j') newline) by reflexivity.
    exact (trim_fixed_trim_end _ H).
Qed.

(** The JSON extraction of [generateQuestion] and [checkAnswer] undoes a
    Markdown code fence: a trimmed JSON text without backticks, wrapped as
    a fenced block (with a [json] tag or without), is handed to
    [JSON.parse] unchanged. *)
Theorem extract_json_fenced_roundtrip (j : string) :
  existsb (Ascii.eqb backtick) (list_ascii_of_string j) = false ->
  trim j = j ->
  extract_json (fence_json ++ String newline (j ++ String newline fence)) = j /\
  extract_json (fence ++ String newline (j ++ String newline fence)) = j.
Proof.
  intros Hb Ht.
  assert (Htr : forall p, trim (String backtick p ++ String newline (j ++ String newline fence))
                          = String backtick p ++ String newline (j ++ String newline fence)).
  { intros p.
    set (x := String backtick p ++ String newline (j ++ String newline fence)).
    assert (Ex : x = (String backtick p ++ String newline (j ++ String newline
                        (String backtick (String backtick EmptyString)))) ++
                     String backtick EmptyString).
    { unfold x, fence; do 3 (simpl; rewrite ?string_append_assoc); reflexivity. }
    unfold trim.
    assert (Es : trim_start x = x).
    { unfold x; change (String backtick p ++ ?y) with (String backtick (p ++ y)).
      apply trim_start_not_ws; reflexivity. }
    rewrite Es, Ex; apply trim_end_snoc_not_ws; reflexivity. }
  split.
  - unfold extract_json.
    change fence_json with (String backtick "``json"%string).
    rewrite Htr; simpl starts_with; cbv iota beta.
    change (replace_json_fence (String backtick "``json"%string ++ String newline (j ++ String newline fence)))
      with (replace_json_fence (j ++ String newline fence)).
    rewrite replace_json_fence_plain by exact Hb.
    rewrite replace_ticks_plain by exact Hb.
    change (replace_json_fence (String newline fence)) with (String newline fence).
    change (replace_ticks (String newline fence)) with (String newline EmptyString).
    exact (trim_snoc_newline j Ht).
  - unfold extract_json.
    change (fence ++ String newline (j ++ String newline fence)) with
      (String backtick "``"%string ++ String newline (j ++ String newline fence)).
    rewrite Htr.
    change (starts_with fence_json (String backtick "``"%string ++ String newline (j ++ String newline fence))) with false.
    change (starts_with fence (String backtick "``"%string ++ String newline (j ++ String newline fence))) with true.
    cbv iota beta.
    change (replace_ticks (String backtick "``"%string ++ String newline (j ++ String newline fence)))
      with (replace_ticks (j ++ String newline fence)).
    rewrite replace_ticks_plain by exact Hb.
    change (replace_ticks (String newline fence)) with (String newline EmptyString).
    exact (trim_snoc_newline j Ht).
Qed.

End LlmFacts.

(** What the Groq-fallback [generateQuestion] returns satisfies
    [QuestionSchema] (so its [difficulty_score] is in [1,100]) and is the
    validated reply of one of the two providers, a non-empty content. *)
Theorem generateQuestion_with_fallback_valid
    (json_parse : string -> option generated_question)
    (openrouter groq : option (option string)) (g : generated_question) :
  Llm.generateQuestion_with_fallback json_parse openrouter groq = Some g ->
  question_schema_parse g = Some g /\ 1 <= difficulty_score g <= 100 /\
  exists content, (openrouter = Some content \/ groq = Some content) /\
    Llm.parseAndValidateResponse json_parse content = Some g /\
    exists c, content = Some c /\ c <> EmptyString.
Proof.
  assert (Hp : forall content, Llm.parseAndValidateResponse json_parse content = Some g ->
            question_schema_parse g = Some g /\ 1 <= difficulty_score g <= 100 /\
            exists c, content = Some c /\ c <> EmptyString).
  { intros [c|] H; [|discriminate].
    destruct c as [|a c']; [discriminate|].
    unfold Llm.parseAndValidateResponse in H.
    destruct (json_parse _) as [p|]; [|discriminate].
    pose proof (question_schema_parse_range p g H) as [-> Hr].
    split; [exact H|split; [exact Hr|]].
    exists (String a c'); split; [reflexivity|discriminate]. }
  unfold Llm.generateQuestion_with_fallback.
  destruct openrouter as [c1|] eqn:E1.
  - destruct (Llm.parseAndValidateResponse json_parse c1) as [v|] eqn:Ev.
    + intros H; injection H as <-.
      destruct (Hp c1 Ev) as [H1 [H2 H3]].
      split; [exact H1|split; [exact H2|]].
      exists c1; split; [left; reflexivity|split; assumption].
    + destruct groq as [c2|]; [|discriminate]; intros H.
      destruct (Hp c2 H) as [H1 [H2 H3]].
      split; [exact H1|split; [exact H2|]].
      exists c2; split; [right; reflexivity|split; assumption].
  - destruct groq as [c2|]; [|discriminate]; intros H.
    destruct (Hp c2 H) as [H1 [H2 H3]].
    split; [exact H1|split; [exact H2|]].
    exists c2; split; [right; reflexivity|split; assumption].
Qed.

(** [generate-question] keeps every saved question's [difficulty] level
    equal to [mapScoreToDifficulty] of its [difficulty_score], the score in
    [1,100]; a returned question is the one row appended, with the fresh
    id, the requested language, the user as author and the LLM's score. *)
Theorem generate_question_questions_inv (fresh_skill fresh_q now : Z) (d d' : db)
    (userId : Z) (l : programming_language) (sessionId : option Z)
    (llm : generated_question) (oq : option Questions.row) :
  Forall (fun q => difficulty q = mapScoreToDifficulty (difficulty_score_col q) /\
                   1 <= difficulty_score_col q <= 100) (questions d) ->
  generate_question fresh_skill fresh_q now d userId l sessionId llm = (d', oq) ->
  Forall (fun q => difficulty q = mapScoreToDifficulty (difficulty_score_col q) /\
                   1 <= difficulty_score_col q <= 100) (questions d') /\
  forall q, oq = Some q ->
    questions d' = questions d ++ [q] /\ Questions.id q = fresh_q /\
    Questions.language q = l /\ created_by q = userId /\
    difficulty_score_col q = difficulty_score llm.
Proof.
  intros Hinv H; unfold generate_question in H.
  destruct (get_or_create_user_skill _ _ _ _ _) as [[sk sd]|];
    [|injection H as <- <-; split; [exact Hinv|discriminate]].
  destruct (question_schema_parse llm) as [g|] eqn:Eg;
    [|injection H as <- <-; split; [exact Hinv|discriminate]].
  pose proof (question_schema_parse_range _ _ Eg) as [-> Hr].
  destruct (insert_question fresh_q (questions d) llm l userId) as [[qt q]|] eqn:Ei;
    [|injection H as <- <-; split; [exact Hinv|discriminate]].
  injection H as <- <-.
  unfold insert_question in Ei.
  destruct (valid_difficulty_score _); [|discriminate].
  injection Ei as <- <-; simpl.
  split.
  - apply Forall_app; split; [exact Hinv|].
    constructor; [split; [reflexivity|exact Hr]|constructor].
  - intros q Hq; injection Hq as <-; repeat split; reflexivity.
Qed.

(** [mapScoreToDifficulty] is monotone for the enum's order. *)
Theorem mapScoreToDifficulty_monotone (a b : Z) :
  a <= b -> difficulty_level_ord (mapScoreToDifficulty a) <= difficulty_level_ord (mapScoreToDifficulty b).
Proof.
  intros Hab; unfold mapScoreToDifficulty.
  destruct (a <=? 20) eqn:A1, (a <=? 40) eqn:A2, (a <=? 60) eqn:A3, (a <=? 80) eqn:A4,
           (b <=? 20) eqn:B1, (b <=? 40) eqn:B2, (b <=? 60) eqn:B3, (b <=? 80) eqn:B4;
    simpl;
    repeat match goal with
           | H : (_ <=? _) = true |- _ => apply Z.leb_le in H
           | H : (_ <=? _) = false |- _ => apply Z.leb_gt in H
           end; lia.
Qed.

(** The difficulty description of [buildQuestionPrompt] begins with the
    label [mapScoreToDifficulty] gives the same score: prompt and stored
    level agree. *)
Theorem difficultyLevel_label (difficulty : Z) :
  Llm.starts_with (Prompts.difficulty_label (mapScoreToDifficulty difficulty))
    (Prompts.difficultyLevel difficulty) = true.
Proof.
  unfold mapScoreToDifficulty, Prompts.difficultyLevel.
  destruct (difficulty <=? 20), (difficulty <=? 40), (difficulty <=? 60), (difficulty <=? 80);
    reflexivity.
Qed.

(** [update_user_difficulty] never inserts, deletes or re-keys a row, and
    leaves every row of another (user, language) pair as it was. *)
Theorem update_user_difficulty_frame (now : Z) (t t' : UserSkills.table) (u : Z)
    (l : programming_language) (b : bool) (qd : Z) (v : Sql.int) :
  update_user_difficulty now t u l b qd = Some (t', v) ->
  map (fun r => (UserSkills.id r, UserSkills.user_id r, UserSkills.language r)) t' =
    map (fun r => (UserSkills.id r, UserSkills.user_id r, UserSkills.language r)) t /\
  forall i r, nth_error t i = Some r -> matches u l r = false -> nth_error t' i = Some r.
Proof.
  intros H; unfold update_user_difficulty in H.
  destruct (select t u l) as [r|]; cbv beta iota in H;
    (destruct (adjust b qd _ _) as [[vn vs]|]; [|discriminate]);
    (destruct (Sql.update _ _ _ t) as [t1|] eqn:E; [|discriminate]);
    injection H as <- _;
    (eapply sql_update_frame; [|exact E]);
    intros r0 r0' Hf; rewrite (set_clause_some _ _ _ _ _ _ Hf); reflexivity.
Qed.

(** A run of n correct answers from the pair's only row, with score in
    [1,100], streak k and best streak bs >= k, the streak and both counters
    in [0, 2147483647 - n] (so that no int4 increment raises): streak
    k + n, best streak max bs (k + n), both counters grown by n, the score
    still in [1,100]. *)
Theorem correct_run_streaks (t : UserSkills.table) (u : Z) (l : programming_language)
    (r : UserSkills.row) (s k bs a c : Z) (xs : list (Z * Z)) :
  filter (matches u l) t = [r] ->
  current_difficulty_score r = Some s -> 1 <= s <= 100 ->
  current_streak r = Some k -> best_streak r = Some bs -> k <= bs ->
  total_questions_attempted r = Some a -> correct_answers r = Some c ->
  0 <= k -> 0 <= a -> 0 <= c ->
  k + Z.of_nat (List.length xs) <= Sql.int4_max ->
  a + Z.of_nat (List.length xs) <= Sql.int4_max ->
  c + Z.of_nat (List.length xs) <= Sql.int4_max ->
  exists r',
    select (run_answers t u l (map (fun '(now, qd) => (now, true, qd)) xs)) u l = Some r' /\
    current_streak r' = Some (k + Z.of_nat (List.length xs)) /\
    best_streak r' = Some (Z.max bs (k + Z.of_nat (List.length xs))) /\
    total_questions_attempted r' = Some (a + Z.of_nat (List.length xs)) /\
    correct_answers r' = Some (c + Z.of_nat (List.length xs)) /\
    exists s', current_difficulty_score r' = Some s' /\ 1 <= s' <= 100.
Proof.
  revert t r s k bs a c.
  induction xs as [|[now qd] xs IH];
    intros t r s k bs a c Hf Hs Hsr Hk Hb Hkb Ha Hc Hk0 Ha0 Hc0 Hkn Han Hcn.
  - exists r; simpl; rewrite !Z.add_0_r, Z.max_l by exact Hkb.
    split; [exact (find_filter_single _ _ _ Hf)|].
    repeat split; try assumption. exists s; split; assumption.
  - cbn [List.length] in Hkn, Han, Hcn; rewrite Nat2Z.inj_succ in Hkn, Han, Hcn.
    assert (Hfit : increments_fit true r = true).
    { unfold increments_fit; rewrite Hk, Ha, Hc; cbn [Sql.add].
      unfold Sql.int4_max in *; rewrite !fits_range by lia; reflexivity. }
    pose proof (update_user_difficulty_unique now t u l true qd r s k Hf Hs Hk Hsr Hfit) as H.
    cbv beta iota zeta in H; destruct H as [t1 [Hu Hf1]].
    set (ns := Z.min 100 (s + (if k >=? 3 then 5 else if qd >? s then 3 else 2))) in *.
    assert (Hns : 1 <= ns <= 100) by (unfold ns; destruct (k >=? 3), (qd >? s); lia).
    destruct (IH t1 (set_row now true (Some ns) (Some (k + 1)) r) ns (k + 1)
                (Z.max bs (k + 1)) (a + 1) (c + 1) Hf1 eq_refl Hns eq_refl
                ltac:(unfold set_row; rewrite Hb; reflexivity) ltac:(lia)
                ltac:(unfold set_row; rewrite Ha; reflexivity)
                ltac:(unfold set_row; rewrite Hc; reflexivity)
                ltac:(lia) ltac:(lia) ltac:(lia) ltac:(lia) ltac:(lia) ltac:(lia))
      as [r' [Hsel' [Hk' [Hb' [Ha' [Hc' Hs']]]]]].
    exists r'; cbn [map run_answers]; rewrite Hu.
    split; [exact Hsel'|].
    cbn [List.length]; rewrite Nat2Z.inj_succ.
    rewrite Hk', Hb', Ha', Hc'.
    repeat split; try (f_equal; lia). exact Hs'.
Qed.

(** From a streak of at least 3 on the pair's only row, with the streak
    and both counters at most 2147483647 - n (counters non-negative), n
    correct answers raise the score by 5 each, clamped at 100, whatever
    the question difficulties. *)
Theorem hot_streak_run (t : UserSkills.table) (u : Z) (l : programming_language)
    (r : UserSkills.row) (s k a c : Z) (xs : list (Z * Z)) :
  filter (matches u l) t = [r] ->
  current_difficulty_score r = Some s -> 1 <= s <= 100 ->
  current_streak r = Some k -> 3 <= k ->
  total_questions_attempted r = Some a -> correct_answers r = Some c ->
  0 <= a -> 0 <= c ->
  k + Z.of_nat (List.length xs) <= Sql.int4_max ->
  a + Z.of_nat (List.length xs) <= Sql.int4_max ->
  c + Z.of_nat (List.length xs) <= Sql.int4_max ->
  exists r',
    select (run_answers t u l (map (fun '(now, qd) => (now, true, qd)) xs)) u l = Some r' /\
    current_difficulty_score r' = Some (Z.min 100 (s + 5 * Z.of_nat (List.length xs))).
Proof.
  revert t r s k a c.
  induction xs as [|[now qd] xs IH];
    intros t r s k a c Hf Hs Hsr Hk Hk3 Ha Hc Ha0 Hc0 Hkn Han Hcn.
  - exists r; simpl; split; [exact (find_filter_single _ _ _ Hf)|].
    rewrite Hs; f_equal; lia.
  - cbn [List.length] in Hkn, Han, Hcn; rewrite Nat2Z.inj_succ in Hkn, Han, Hcn.
    assert (Hfit : increments_fit true r = true).
    { unfold increments_fit; rewrite Hk, Ha, Hc; cbn [Sql.add].
      unfold Sql.int4_max in *; rewrite !fits_range by lia; reflexivity. }
    pose proof (update_user_difficulty_unique now t u l true qd r s k Hf Hs Hk Hsr Hfit) as H.
    cbv beta iota zeta in H.
    replace (k >=? 3) with true in H by (symmetry; apply Z.geb_le; lia).
    destruct H as [t1 [Hu Hf1]].
    destruct (IH t1 (set_row now true (Some (Z.min 100 (s + 5))) (Some (k + 1)) r)
                (Z.min 100 (s + 5)) (k + 1) (a + 1) (c + 1) Hf1 eq_refl ltac:(lia) eq_refl
                ltac:(lia)
                ltac:(unfold set_row; rewrite Ha; reflexivity)
                ltac:(unfold set_row; rewrite Hc; reflexivity)
                ltac:(lia) ltac:(lia) ltac:(lia) ltac:(lia) ltac:(lia))
      as [r' [Hsel' Hs']].
    exists r'; cbn [map run_answers]; rewrite Hu.
    split; [exact Hsel'|].
    cbn [List.length]; rewrite Nat2Z.inj_succ, Hs'; f_equal; lia.
Qed.

Lemma filter_all_false {A} (f : A -> bool) (l : list A) :
  (forall x, In x l -> f x = false) -> filter f l = [].
Proof.
  induction l as [|a l IH]; intros H; simpl; [reflexivity|].
  rewrite (H a (or_introl eq_refl)); apply IH; intros x Hx; apply H; right; exact Hx.
Qed.

(** Generating a question for a pair without a skill row and then
    answering it: the lazily created row (score 10, streak 0) receives the
    answer, giving 13 or 12 for a right answer (question score above 10 or
    not) and 5 or 7 for a wrong one (below 10 or not), one attempt. *)
Theorem first_answer_after_generate (fresh_skill fresh_q now now' : Z) (d d1 : db)
    (u : Z) (l : programming_language) (sid sid' : option Z) (llm : generated_question)
    (q : Questions.row) (b : bool) :
  select (skills d) u l = None ->
  (forall q0, In q0 (questions d) -> Questions.id q0 <> fresh_q) ->
  generate_question fresh_skill fresh_q now d u l sid llm = (d1, Some q) ->
  exists d2 r,
    check_answer now' d1 u (Questions.id q) sid' b = Some d2 /\
    select (skills d2) u l = Some r /\
    current_difficulty_score r =
      Some (if b then (if difficulty_score_col q >? 10 then 13 else 12)
            else (if difficulty_score_col q <? 10 then 5 else 7)) /\
    total_questions_attempted r = Some 1 /\
    correct_answers r = Some (if b then 1 else 0) /\
    current_streak r = Some (if b then 1 else 0).
Proof.
  intros Hsel Hfresh Hg; unfold generate_question in Hg.
  rewrite (get_or_create_user_skill_missing fresh_skill now (skills d) u l Hsel) in Hg.
  destruct (question_schema_parse llm) as [g|] eqn:Eg; [|discriminate].
  destruct (insert_question fresh_q (questions d) g l u) as [[qt q0]|] eqn:Ei; [|discriminate].
  injection Hg as <- <-.
  unfold insert_question in Ei; destruct (valid_difficulty_score _); [|discriminate].
  injection Ei as <- <-.
  set (q := Questions.mk_row fresh_q _ _ _ _ l _ u _).
  set (r0 := UserSkills.mk_row fresh_skill u l (Some 10) (Some 0) (Some 0) (Some 0) (Some 0)
               None (Some now)).
  assert (Hf : fetch (questions d ++ [q]) fresh_q = Some q).
  { unfold fetch; rewrite filter_app.
    replace (filter (fun r => Questions.id r =? fresh_q) (questions d)) with (@nil Questions.row).
    - simpl; rewrite Z.eqb_refl; reflexivity.
    - symmetry; apply filter_all_false; intros x Hx; apply Z.eqb_neq; exact (Hfresh x Hx). }
  assert (Hsel0 : select (skills d ++ [r0]) u l = Some r0).
  { apply find_app_none; [exact Hsel|apply matches_refl; reflexivity]. }
  assert (Hfit : forall r1, In r1 (skills d ++ [r0]) -> matches u l r1 = true ->
                            increments_fit b r1 = true).
  { intros r1 Hin Hm; apply in_app_or in Hin as [Hin|[<-|[]]].
    - unfold select in Hsel; rewrite (find_none _ _ Hsel r1 Hin) in Hm; discriminate.
    - destruct b; reflexivity. }
  destruct (update_user_difficulty_found_select now' (skills d ++ [r0]) u l b
              (difficulty_score g) r0 10 0 Hsel0 eq_refl eq_refl ltac:(lia) Hfit)
    as [t1 [Hu Hsel1]].
  unfold check_answer, check_answer_rpc_args; simpl.
  rewrite Hf; simpl; rewrite Hu.
  eexists; eexists; split; [reflexivity|]; simpl.
  split; [exact Hsel1|].
  destruct b; simpl; [destruct (difficulty_score g >? 10)|destruct (difficulty_score g <? 10)];
    repeat split; reflexivity.
Qed.

(** [sessions/[id]/end] refuses (404) when no session with that id belongs
    to the user. *)
Theorem end_session_not_owner (t : Sessions.table) (sid uid now : Z) :
  (forall r, In r t -> Sessions.id r = sid -> Sessions.user_id r <> uid) ->
  end_session t sid uid now = None.
Proof.
  intros H; unfold end_session, patch; simpl; unfold count_sel.
  replace (filter _ t) with (@nil Sessions.row); [reflexivity|].
  symmetry; apply filter_all_false; intros x Hx.
  destruct (Sessions.id x =? sid) eqn:E1; [|reflexivity]; simpl.
  apply Z.eqb_neq, (H x Hx), Z.eqb_eq, E1.
Qed.

(** The older [generate-question] handler never changes [learning_sessions]:
    the unawaited query builder is refused for the integer column. *)
Theorem generate_question_session_update_v0_id (userId : Z) (sessionId : option Z)
    (t : Sessions.table) :
  generate_question_session_update_v0 userId sessionId t = t.
Proof.
  destruct sessionId as [sid|]; [|reflexivity]; unfold generate_question_session_update_v0.
  apply patch_query_builder.
Qed.

Lemma rank_from_nth {A} (index : Z) (entries : list A) (i : nat) :
  nth_error (rank_from index entries) i =
    option_map (fun e => (index + Z.of_nat i + 1, e)) (nth_error entries i).
Proof.
  revert index i; induction entries as [|e rest IH]; intros index [|i]; simpl;
    try reflexivity.
  - f_equal; f_equal; lia.
  - rewrite IH; destruct (nth_error rest i); simpl; [f_equal; f_equal; lia|reflexivity].
Qed.

(** The leaderboard keeps the view's order and numbers its entries 1, 2,
    ...; a missing result becomes the empty list. *)
Theorem rankedLeaderboard_ranks {A} :
  rankedLeaderboard (@None (list A)) = [] /\
  forall entries : list A,
    List.length (rankedLeaderboard (Some entries)) = List.length entries /\
    forall i, nth_error (rankedLeaderboard (Some entries)) i =
                option_map (fun e => (Z.of_nat i + 1, e)) (nth_error entries i).
Proof.
  split; [reflexivity|]; intros entries; simpl.
  split.
  - generalize 0; induction entries as [|e rest IH]; intros k; simpl; [reflexivity|].
    rewrite IH; reflexivity.
  - intros i; rewrite rank_from_nth; reflexivity.
Qed.

(** [get_or_create_user_skill] only appends, and returns the row of the
    requested pair that a later [SELECT] finds. *)
Theorem get_or_create_user_skill_returns (fresh now : Z) (t t' : UserSkills.table) (u : Z)
    (l : programming_language) (r : UserSkills.row) :
  get_or_create_user_skill fresh now t u l = Some (t', r) ->
  (exists ext, t' = t ++ ext) /\ select t' u l = Some r /\
  UserSkills.user_id r = u /\ UserSkills.language r = l.
Proof.
  intros H.
  assert (Hm : matches u l r = true -> UserSkills.user_id r = u /\ UserSkills.language r = l).
  { unfold matches; intros Hm; apply andb_true_iff in Hm as [H1 H2].
    split; [apply Z.eqb_eq; exact H1|].
    exact (internal_programming_language_dec_bl _ _ H2). }
  destruct (select t u l) as [r0|] eqn:Hsel.
  - unfold get_or_create_user_skill in H; rewrite Hsel in H; injection H as <- <-.
    split; [exists []; rewrite app_nil_r; reflexivity|split; [exact Hsel|]].
    apply Hm; exact (proj2 (find_some _ _ Hsel)).
  - rewrite (get_or_create_user_skill_missing fresh now t u l Hsel) in H.
    injection H as <- <-.
    split; [eexists; reflexivity|].
    split; [apply find_app_none; [exact Hsel|apply matches_refl; reflexivity]|].
    split; reflexivity.
Qed.

(** [check-answer] never changes [questions] nor [learning_sessions]. *)
Theorem check_answer_frame (now : Z) (d d' : db) (userId questionId : Z)
    (sessionId : option Z) (is_correct : bool) :
  check_answer now d userId questionId sessionId is_correct = Some d' ->
  questions d' = questions d /\ sessions d' = sessions d.
Proof.
  unfold check_answer; destruct (check_answer_rpc_args _ _) as [[l qd]|]; [|discriminate].
  intros H; injection H as <-; simpl.
  split; [reflexivity|apply check_answer_session_update_id].
Qed.

(** [check-answer] for an id no question has is the 404 response, with
    nothing written. *)
Theorem check_answer_unknown_question (now : Z) (d : db) (userId questionId : Z)
    (sessionId : option Z) (is_correct : bool) :
  (forall q, In q (questions d) -> Questions.id q <> questionId) ->
  check_answer now d userId questionId sessionId is_correct = None.
Proof.
  intros H; unfold check_answer, check_answer_rpc_args, fetch.
  replace (filter _ (questions d)) with (@nil Questions.row); [reflexivity|].
  symmetry; apply filter_all_false; intros x Hx; apply Z.eqb_neq, H, Hx.
Qed.

(** When the LLM reply fails [QuestionSchema], no question is saved and the
    sessions are untouched, but a missing skill row has already been
    created with score 10. *)
Theorem generate_question_rejected_reply (fresh_skill fresh_q now : Z) (d d' : db)
    (userId : Z) (l : programming_language) (sessionId : option Z)
    (llm : generated_question) (oq : option Questions.row) :
  question_schema_parse llm = None ->
  generate_question fresh_skill fresh_q now d userId l sessionId llm = (d', oq) ->
  oq = None /\ questions d' = questions d /\ sessions d' = sessions d /\
  (select (skills d) userId l = None ->
     exists r, select (skills d') userId l = Some r /\ current_difficulty_score r = Some 10).
Proof.
  intros Hq H; unfold generate_question in H.
  destruct (get_or_create_user_skill fresh_skill now (skills d) userId l) as [[sk sd]|] eqn:Eg.
  - rewrite Hq in H; injection H as <- <-; simpl.
    split; [reflexivity|split; [reflexivity|split; [reflexivity|]]].
    intros Hsel; rewrite (get_or_create_user_skill_missing _ _ _ _ _ Hsel) in Eg.
    injection Eg as <- <-.
    eexists; split; [apply find_app_none; [exact Hsel|apply matches_refl; reflexivity]|reflexivity].
  - injection H as <- <-.
    split; [reflexivity|split; [reflexivity|split; [reflexivity|]]].
    intros Hsel; rewrite (get_or_create_user_skill_missing _ _ _ _ _ Hsel) in Eg; discriminate.
Qed.
Module StoreFacts.
Import Store.

(** [fetchNewQuestion] sends one request with the store's session, always
    ends not loading and without feedback, keeps the session, and either
    keeps the current question or installs one tagged with the requested
    language. *)
Theorem fetchNewQuestion_effect (l : programming_language) (res : fetch_result Question)
    (s : LearningStore) :
  let '(reqs, s') := fetchNewQuestion l res s in
  reqs = [PostGenerateQuestion l (sessionId s)] /\
  isLoading s' = false /\ feedback s' = None /\ sessionId s' = sessionId s /\
  (currentQuestion s' = currentQuestion s \/
   exists q, currentQuestion s' = Some q /\ language q = Some l).
Proof.
  unfold fetchNewQuestion.
  destruct res as [|[|] [data|]]; simpl; repeat split; try (left; reflexivity).
  right; eexists; split; reflexivity.
Qed.

(** [submitAnswer] without a current question sends nothing and changes
    nothing; with one, it sends that question's id and the session, and
    ends not loading with the question and session kept. *)
Theorem submitAnswer_effect (answer : string) (res : fetch_result Feedback)
    (s : LearningStore) :
  let '(reqs, s') := submitAnswer answer res s in
  (currentQuestion s = None -> reqs = [] /\ s' = s) /\
  (forall q, currentQuestion s = Some q ->
     reqs = [PostCheckAnswer (id q) answer (sessionId s)] /\
     isLoading s' = false /\ currentQuestion s' = Some q /\ sessionId s' = sessionId s).
Proof.
  unfold submitAnswer; destruct (currentQuestion s) as [q0|] eqn:E.
  - split; [discriminate|]; intros q Hq; injection Hq as <-.
    destruct res as [|[|] [data|]]; simpl; rewrite ?E; repeat split; reflexivity.
  - split; [intros _; split; reflexivity|discriminate].
Qed.

(** [endSession] sends a request only for an open session, touches nothing
    but [sessionId], and clears it exactly when there is none or the
    server answered with an ok response or a JSON body. *)
Theorem endSession_effect (res : fetch_result unit) (s : LearningStore) :
  let '(reqs, s') := endSession res s in
  reqs = match sessionId s with Some sid => [PostSessionsEnd sid] | None => [] end /\
  currentQuestion s' = currentQuestion s /\ feedback s' = feedback s /\
  isLoading s' = isLoading s /\
  (sessionId s' = None <->
     sessionId s = None \/ exists ok body, res = Response ok body /\ (ok = true \/ body <> None)) /\
  (sessionId s' = None \/ sessionId s' = sessionId s).
Proof.
  unfold endSession; destruct (sessionId s) as [sid|] eqn:E.
  - destruct res as [|[|] [b|]]; simpl; repeat split; rewrite ?E; auto; try discriminate.
    + intros [H|[ok [body [H _]]]]; discriminate.
    + intros _; right; exists true, (Some b); split; [reflexivity|left; reflexivity].
    + intros _; right; exists true, None; split; [reflexivity|left; reflexivity].
    + intros _; right; exists false, (Some b); split; [reflexivity|right; discriminate].
    + intros [H|[ok [body [H [H1|H1]]]]]; try discriminate; injection H as <- <-;
        [discriminate|congruence].
  - rewrite E; repeat split; auto.
Qed.

(** Starting a session and ending it successfully sends the two requests
    for that session and leaves the store without one. *)
Theorem start_then_end_session (l : programming_language) (sid : Z)
    (body : option unit) (s : LearningStore) :
  run_store [AStartSession l (Response true (Some (Some sid))); AEndSession (Response true body)] s =
    ([PostSessionsStart l; PostSessionsEnd sid],
     mk_store (currentQuestion s) (feedback s) (isLoading s) None).
Proof. reflexivity. Qed.

(** Once every action has completed, the store is not loading. *)
Theorem run_store_not_loading (acts : list action) (s : LearningStore) :
  isLoading s = false -> isLoading (snd (run_store acts s)) = false.
Proof.
  revert s; induction acts as [|a acts IH]; intros s H; simpl; [exact H|].
  destruct (run_action a s) as [reqs1 s1] eqn:Ea.
  destruct (run_store acts s1) as [reqs2 s2] eqn:Er.
  simpl; replace s2 with (snd (run_store acts s1)) by (rewrite Er; reflexivity).
  apply IH.
  destruct a as [l res|ans res| |l res|res]; simpl in Ea.
  - unfold fetchNewQuestion in Ea; injection Ea as _ <-.
    destruct res as [|[|] [data|]]; reflexivity.
  - unfold submitAnswer in Ea; destruct (currentQuestion s).
    + injection Ea as _ <-; destruct res as [|[|] [data|]]; reflexivity.
    + injection Ea as _ <-; exact H.
  - injection Ea as _ <-; exact H.
  - unfold startSession in Ea; injection Ea as _ <-.
    destruct res as [|[|] [sid|]]; exact H.
  - unfold endSession in Ea; destruct (sessionId s).
    + injection Ea as _ <-; destruct res as [|[|] [b|]]; exact H.
    + injection Ea as _ <-; exact H.
Qed.

Lemma run_action_sessions (P : Z -> Prop) (a : action) (s : LearningStore) :
  (forall sid, sessionId s = Some sid -> P sid) ->
  (forall l sid, a = AStartSession l (Response true (Some (Some sid))) -> P sid) ->
  (forall r sid, In r (fst (run_action a s)) -> request_session r = Some sid -> P sid) /\
  (forall sid, sessionId (snd (run_action a s)) = Some sid -> P sid).
Proof.
  intros Hs Ha; destruct a as [l res|ans res| |l res|res]; simpl.
  - destruct res as [|[|] [data|]]; simpl; split;
      solve [intros r sid [<-|[]] H; exact (Hs sid H) | exact Hs].
  - unfold submitAnswer; destruct (currentQuestion s) as [q|].
    + destruct res as [|[|] [data|]]; simpl; split;
        solve [intros r sid [<-|[]] H; exact (Hs sid H) | exact Hs].
    + split; [intros r sid []|exact Hs].
  - split; [intros r sid []|exact Hs].
  - split; [intros r sid [<-|[]] H; discriminate|].
    destruct res as [|[|] [sid0|]]; simpl; try exact Hs.
    intros sid ->; exact (Ha l sid eq_refl).
  - unfold endSession; destruct (sessionId s) as [sid0|] eqn:E.
    + split; [intros r sid [<-|[]] H; injection H as <-; exact (Hs sid0 eq_refl)|].
      destruct res as [|[|] [b|]]; simpl; intros sid H; try discriminate;
        rewrite E in H; exact (Hs sid H).
    + split; [intros r sid []|simpl; rewrite E; exact Hs].
Qed.

Lemma run_store_sessions (P : Z -> Prop) (acts : list action) (s : LearningStore) :
  (forall sid, sessionId s = Some sid -> P sid) ->
  (forall l sid, In (AStartSession l (Response true (Some (Some sid)))) acts -> P sid) ->
  (forall r sid, In r (fst (run_store acts s)) -> request_session r = Some sid -> P sid) /\
  (forall sid, sessionId (snd (run_store acts s)) = Some sid -> P sid).
Proof.
  revert s; induction acts as [|a acts IH]; intros s Hs Ha; simpl.
  - split; [intros r sid []|exact Hs].
  - destruct (run_action_sessions P a s Hs) as [H1 H2].
    { intros l sid ->; exact (Ha l sid (or_introl eq_refl)). }
    destruct (run_action a s) as [reqs1 s1] eqn:Ea; simpl in H1, H2.
    destruct (IH s1 H2) as [H3 H4].
    { intros l sid Hin; exact (Ha l sid (or_intror Hin)). }
    destruct (run_store acts s1) as [reqs2 s2] eqn:Er; simpl in H3, H4 |- *.
    split; [|exact H4].
    intros r sid Hin Hr; apply in_app_or in Hin as [Hin|Hin];
      [exact (H1 r sid Hin Hr)|exact (H3 r sid Hin Hr)].
Qed.

Lemma run_action_requests (P : Z -> Prop) (a : action) (s : LearningStore) :
  (forall sid, sessionId s = Some sid -> P sid) ->
  forall r sid, In r (fst (run_action a s)) -> request_session r = Some sid -> P sid.
Proof.
  intros Hs; destruct a as [l res|ans res| |l res|res]; simpl.
  - destruct res as [|[|] [data|]]; simpl; intros r sid [<-|[]] H; exact (Hs sid H).
  - unfold submitAnswer; destruct (currentQuestion s) as [q|].
    + destruct res as [|[|] [data|]]; simpl; intros r sid [<-|[]] H; exact (Hs sid H).
    + intros r sid [].
  - intros r sid [].
  - intros r sid [<-|[]] H; discriminate.
  - unfold endSession; destruct (sessionId s) as [sid0|] eqn:E.
    + intros r sid [<-|[]] H; injection H as <-; exact (Hs sid0 eq_refl).
    + intros r sid [].
Qed.

(** From a store without a session, every session id in a request that an
    action sends after the actions [pre] was returned by a successful
    [startSession] among [pre], that is, earlier. *)
Theorem run_store_session_ids (pre : list action) (a : action) (s : LearningStore) :
  sessionId s = None ->
  forall r sid, In r (fst (run_action a (snd (run_store pre s)))) ->
    request_session r = Some sid ->
    exists l, In (AStartSession l (Response true (Some (Some sid)))) pre.
Proof.
  intros H0; apply run_action_requests.
  apply (proj2 (run_store_sessions
                  (fun sid => exists l, In (AStartSession l (Response true (Some (Some sid)))) pre)
                  pre s ltac:(intros sid H; rewrite H0 in H; discriminate)
                  ltac:(intros l sid Hin; exists l; exact Hin))).
Qed.

End StoreFacts.

(** ** Instances of the theorems at concrete inputs *)

(** Scenario 6 of the spec: score 98, streak 3, correct at difficulty 98. *)
Lemma correct_answer_transition_witness :
  exists t' r',
    update_user_difficulty 5 [sample_skill 98 3] 7 python true 98 =
      Some (t', current_difficulty_score r') /\
    select t' 7 python = Some r' /\
    current_difficulty_score r' = Some 100 /\ current_streak r' = Some 4.
Proof.
  apply (correct_answer_transition 5 [sample_skill 98 3] 7 python 98 (sample_skill 98 3) 98 3);
    first [reflexivity | lia | intros r0 [<-|[]] _; reflexivity].
Defined.

(** Scenario 7 of the spec: score 2, streak 0, wrong at difficulty 10. *)
Lemma wrong_answer_transition_witness :
  exists t' r',
    update_user_difficulty 5 [sample_skill 2 0] 7 python false 10 =
      Some (t', current_difficulty_score r') /\
    select t' 7 python = Some r' /\
    current_difficulty_score r' = Some 1 /\ current_streak r' = Some 0.
Proof.
  apply (wrong_answer_transition 5 [sample_skill 2 0] 7 python 10 (sample_skill 2 0) 2 0);
    first [reflexivity | lia | intros r0 [<-|[]] _; reflexivity].
Defined.

Lemma transition_score_monotone_witness :
  exists t' r' s',
    update_user_difficulty 5 [sample_skill 50 0] 7 python true 70 = Some (t', Some s') /\
    select t' 7 python = Some r' /\
    current_difficulty_score r' = Some s' /\
    (true = true -> 50 <= s' <= 100) /\
    (true = false -> 1 <= s' <= 50).
Proof.
  apply (transition_score_monotone 5 [sample_skill 50 0] 7 python true 70
           (sample_skill 50 0) 50 0);
    first [reflexivity | lia | intros r0 [<-|[]] _; reflexivity].
Defined.

(** A table reached by creating the default row of user 7 in [python] and
    then judging a correct answer at difficulty 50. *)
Lemma score_invariant_reachable_witness :
  current_difficulty_score
    (UserSkills.mk_row 1 7 python (Some 10) (Some 0) (Some 0) (Some 0) (Some 0) None (Some 0)) =
    Some 10 /\
  Forall (fun r => exists s, current_difficulty_score r = Some s /\ 1 <= s <= 100)
    [UserSkills.mk_row 1 7 python (Some 13) (Some 1) (Some 1) (Some 1) (Some 1) (Some 5) (Some 5)].
Proof.
  split.
  - apply (proj1 score_invariant_reachable 1 0 [] 7 python
             [UserSkills.mk_row 1 7 python (Some 10) (Some 0) (Some 0) (Some 0) (Some 0)
                None (Some 0)]);
      reflexivity.
  - apply (proj2 score_invariant_reachable).
    apply (skills_update
             [UserSkills.mk_row 1 7 python (Some 10) (Some 0) (Some 0) (Some 0) (Some 0)
                None (Some 0)]
             _ 5 7 python true 50 (Some 13)).
    + apply (skills_get_or_create [] _ 1 0 7 python
               (UserSkills.mk_row 1 7 python (Some 10) (Some 0) (Some 0) (Some 0) (Some 0)
                  None (Some 0)));
        [exact skills_empty|reflexivity].
    + lia.
    + reflexivity.
Defined.

(** One correct answer, then three answers of which the first raises: the
    [total_questions_attempted] of the row is the int4 maximum, so every
    call of the run fails and the counters stay where they are. *)
Lemma transition_counters_witness :
  (exists t' v r' k',
     update_user_difficulty 1 [sample_skill 50 3] 7 python true 60 = Some (t', v) /\
     select t' 7 python = Some r' /\
     current_streak r' = Some k' /\
     best_streak r' = Some (Z.max 3 k') /\
     total_questions_attempted r' = Some (4 + 1) /\
     correct_answers r' = Some (2 + if true then 1 else 0) /\
     last_practiced_at r' = Some 1) /\
  (exists r' bs' ta' tc',
     select (run_answers
               [UserSkills.mk_row 3 7 python (Some 50) (Some Sql.int4_max) (Some 2) (Some 3)
                  (Some 3) None (Some 0)]
               7 python [(1, true, 60); (2, false, 40); (3, true, 45)]) 7 python = Some r' /\
     best_streak r' = Some bs' /\ 3 <= bs' /\
     total_questions_attempted r' = Some ta' /\ Sql.int4_max <= ta' /\
     correct_answers r' = Some tc' /\ 2 <= tc').
Proof.
  split.
  - apply (proj1 (transition_counters [sample_skill 50 3] 7 python (sample_skill 50 3)
                    50 3 3 4 2 eq_refl eq_refl ltac:(lia) eq_refl eq_refl eq_refl eq_refl)).
    intros r0 [<-|[]] _; reflexivity.
  - apply (proj2 (transition_counters
                    [UserSkills.mk_row 3 7 python (Some 50) (Some Sql.int4_max) (Some 2) (Some 3)
                       (Some 3) None (Some 0)] 7 python
                    (UserSkills.mk_row 3 7 python (Some 50) (Some Sql.int4_max) (Some 2) (Some 3)
                       (Some 3) None (Some 0))
                    50 3 3 Sql.int4_max 2 eq_refl eq_refl ltac:(lia)
                    eq_refl eq_refl eq_refl eq_refl)).
Defined.

Lemma llm_difficulty_validated_witness :
  snd (generate_question 1 2 0 (mk_db [] [] []) 7 python None
         (mk_generated "for (;;) {}"%string "What does this do?"%string
            "It loops"%string "An infinite loop with no body."%string
            ["loops"%string] 150)) = None /\
  (forall l qd,
     check_answer_rpc_args
       [Questions.mk_row 100 "for (;;) {}"%string "What does this do?"%string
          "It loops"%string medium python ["loops"%string] 7 50] 100 = Some (l, qd) ->
     1 <= qd <= 100).
Proof.
  split.
  - apply (proj1 (proj1 llm_difficulty_validated 1 2 0 (mk_db [] [] []) 7 python None
                    (mk_generated "for (;;) {}"%string "What does this do?"%string
                       "It loops"%string "An infinite loop with no body."%string
                       ["loops"%string] 150) ltac:(right; simpl; lia))).

  - intros l qd; apply (proj2 (proj2 llm_difficulty_validated)).
    repeat constructor.
Defined.

Lemma session_attempt_counters_witness :
  generate_question_session_update 7 (Some 1) [sample_session] =
    map (fun r => if visible 7 1 r then with_attempted r (2 + 1) else r) [sample_session].
Proof.
  apply (proj1 session_attempt_counters [sample_session] 7 1 sample_session 2);
    first [reflexivity | unfold Sql.int4_max; lia].
Defined.

Lemma get_or_create_default_idempotent_witness :
  exists t' r',
    get_or_create_user_skill 1 0 [] 7 python = Some (t', r') /\
    current_difficulty_score r' = Some 10 /\ current_streak r' = Some 0 /\
    best_streak r' = Some 0 /\ total_questions_attempted r' = Some 0 /\
    correct_answers r' = Some 0 /\ select t' 7 python = Some r'.
Proof.
  apply (proj1 get_or_create_default_idempotent 1 0 [] 7 python); reflexivity.
Defined.

Lemma end_session_dates_witness :
  end_session [sample_session] 1 7 30 = Some [with_ended sample_session 30] /\
  end_session [sample_session] 1 7 10 = None.
Proof.
  split.
  - apply (proj1 (proj1 end_session_dates [sample_session] 1 7 30 sample_session 20
                    eq_refl eq_refl)); lia.
  - apply (proj2 (proj1 end_session_dates [sample_session] 1 7 10 sample_session 20
                    eq_refl eq_refl)); lia.
Defined.

Lemma update_no_lazy_init_witness :
  exists v, update_user_difficulty 5 [sample_skill 50 0] 7 java true 50 =
            Some ([sample_skill 50 0], v).
Proof.
  apply (proj1 update_no_lazy_init); reflexivity.
Defined.

Lemma extract_json_fenced_roundtrip_witness :
  Llm.extract_json (Llm.fence_json ++ String Llm.newline
                      ("[1, 2]" ++ String Llm.newline Llm.fence))%string = "[1, 2]"%string /\
  Llm.extract_json (Llm.fence ++ String Llm.newline
                      ("[1, 2]" ++ String Llm.newline Llm.fence))%string = "[1, 2]"%string.
Proof. apply LlmFacts.extract_json_fenced_roundtrip; reflexivity. Defined.

Lemma generateQuestion_with_fallback_valid_witness :
  question_schema_parse sample_generated = Some sample_generated /\
  1 <= difficulty_score sample_generated <= 100 /\
  exists content, (Some (Some "{}"%string) = Some content \/ @None (option string) = Some content) /\
    Llm.parseAndValidateResponse (fun _ => Some sample_generated) content = Some sample_generated /\
    exists c, content = Some c /\ c <> EmptyString.
Proof.
  apply (generateQuestion_with_fallback_valid (fun _ => Some sample_generated)
           (Some (Some "{}"%string)) None sample_generated); reflexivity.
Defined.

Lemma generate_question_questions_inv_witness :
  exists d' oq,
    generate_question 1 2 0 (mk_db [] [] [sample_question]) 7 python None sample_generated = (d', oq) /\
    Forall (fun q => difficulty q = mapScoreToDifficulty (difficulty_score_col q) /\
                     1 <= difficulty_score_col q <= 100) (questions d') /\
    forall q, oq = Some q ->
      questions d' = [sample_question] ++ [q] /\ Questions.id q = 2 /\
      Questions.language q = python /\ created_by q = 7 /\
      difficulty_score_col q = difficulty_score sample_generated.
Proof.
  do 2 eexists; split; [reflexivity|].
  apply (generate_question_questions_inv 1 2 0 (mk_db [] [] [sample_question]) _ 7 python None sample_generated).
  - constructor; [split; [reflexivity|simpl; lia]|constructor].
  - reflexivity.
Defined.

Lemma mapScoreToDifficulty_monotone_witness :
  difficulty_level_ord (mapScoreToDifficulty 30) <= difficulty_level_ord (mapScoreToDifficulty 70).
Proof. apply mapScoreToDifficulty_monotone; lia. Defined.

(** User 7 has a [python] row, which is rewritten, and a [java] row,
    which is not. *)
Lemma update_user_difficulty_frame_witness :
  exists t' v,
    update_user_difficulty 5
      [sample_skill 50 0;
       UserSkills.mk_row 4 7 java (Some 40) (Some 1) (Some 0) (Some 0) (Some 0) None (Some 0)]
      7 python true 60 = Some (t', v) /\
    t' <> [sample_skill 50 0;
           UserSkills.mk_row 4 7 java (Some 40) (Some 1) (Some 0) (Some 0) (Some 0) None (Some 0)] /\
    map (fun r => (UserSkills.id r, UserSkills.user_id r, UserSkills.language r)) t' =
      map (fun r => (UserSkills.id r, UserSkills.user_id r, UserSkills.language r))
        [sample_skill 50 0;
         UserSkills.mk_row 4 7 java (Some 40) (Some 1) (Some 0) (Some 0) (Some 0) None (Some 0)] /\
    forall i r, nth_error [sample_skill 50 0;
                           UserSkills.mk_row 4 7 java (Some 40) (Some 1) (Some 0) (Some 0)
                             (Some 0) None (Some 0)] i = Some r ->
      matches 7 python r = false -> nth_error t' i = Some r.
Proof.
  do 2 eexists; split; [reflexivity|]; split; [discriminate|].
  eapply (update_user_difficulty_frame 5
            [sample_skill 50 0;
             UserSkills.mk_row 4 7 java (Some 40) (Some 1) (Some 0) (Some 0) (Some 0) None (Some 0)]
            _ 7 python true 60 _).
  reflexivity.
Defined.

Lemma correct_run_streaks_witness :
  exists r',
    select (run_answers [sample_skill 50 0] 7 python
              (map (fun '(now, qd) => (now, true, qd)) [(1, 60); (2, 60)])) 7 python = Some r' /\
    current_streak r' = Some (0 + Z.of_nat 2) /\
    best_streak r' = Some (Z.max 0 (0 + Z.of_nat 2)) /\
    total_questions_attempted r' = Some (4 + Z.of_nat 2) /\
    correct_answers r' = Some (2 + Z.of_nat 2) /\
    exists s', current_difficulty_score r' = Some s' /\ 1 <= s' <= 100.
Proof.
  apply (correct_run_streaks [sample_skill 50 0] 7 python (sample_skill 50 0) 50 0 0 4 2
           [(1, 60); (2, 60)]);
    first [reflexivity | simpl; unfold Sql.int4_max; lia].
Defined.

Lemma hot_streak_run_witness :
  exists r',
    select (run_answers [sample_skill 90 3] 7 python
              (map (fun '(now, qd) => (now, true, qd)) [(1, 50); (2, 50); (3, 50)])) 7 python =
      Some r' /\
    current_difficulty_score r' = Some (Z.min 100 (90 + 5 * Z.of_nat 3)).
Proof.
  apply (hot_streak_run [sample_skill 90 3] 7 python (sample_skill 90 3) 90 3 4 2);
    first [reflexivity | simpl; unfold Sql.int4_max; lia].
Defined.

Lemma first_answer_after_generate_witness :
  exists d1 q,
    generate_question 1 2 0 (mk_db [] [] []) 7 python None sample_generated = (d1, Some q) /\
    exists d2 r,
      check_answer 5 d1 7 (Questions.id q) None true = Some d2 /\
      select (skills d2) 7 python = Some r /\
      current_difficulty_score r =
        Some (if true then (if difficulty_score_col q >? 10 then 13 else 12)
              else (if difficulty_score_col q <? 10 then 5 else 7)) /\
      total_questions_attempted r = Some 1 /\
      correct_answers r = Some (if true then 1 else 0) /\
      current_streak r = Some (if true then 1 else 0).
Proof.
  do 2 eexists; split; [reflexivity|].
  apply (first_answer_after_generate 1 2 0 5 (mk_db [] [] []) _ 7 python None None
           sample_generated _ true).
  - reflexivity.
  - intros q0 [].
  - reflexivity.
Defined.

Lemma end_session_not_owner_witness :
  end_session [sample_session] 1 8 30 = None.
Proof.
  apply end_session_not_owner; intros r [<-|[]] _; discriminate.
Defined.

Lemma get_or_create_user_skill_returns_witness :
  exists t' r,
    get_or_create_user_skill 1 0 [sample_skill 50 0] 7 java = Some (t', r) /\
    (exists ext, t' = [sample_skill 50 0] ++ ext) /\ select t' 7 java = Some r /\
    UserSkills.user_id r = 7 /\ UserSkills.language r = java.
Proof.
  do 2 eexists; split; [reflexivity|].
  apply (get_or_create_user_skill_returns 1 0 [sample_skill 50 0]); reflexivity.
Defined.

Lemma check_answer_frame_witness :
  exists d',
    check_answer 5 (mk_db [sample_skill 50 0] [sample_session] [sample_question]) 7 100 (Some 1) true = Some d' /\
    questions d' = [sample_question] /\ sessions d' = [sample_session].
Proof.
  eexists; split; [reflexivity|].
  apply (check_answer_frame 5 (mk_db [sample_skill 50 0] [sample_session] [sample_question]) _ 7 100 (Some 1) true).
  reflexivity.
Defined.

Lemma check_answer_unknown_question_witness :
  check_answer 5 (mk_db [sample_skill 50 0] [sample_session] [sample_question]) 7 101 (Some 1) true = None.
Proof.
  apply check_answer_unknown_question; intros q [<-|[]]; discriminate.
Defined.

Lemma generate_question_rejected_reply_witness :
  exists d' oq,
    generate_question 1 2 0 (mk_db [] [sample_session] []) 7 python (Some 1)
      (mk_generated "for (;;) {}"%string "What does this do?"%string
         "It loops"%string "An infinite loop with no body."%string ["loops"%string] 150) = (d', oq) /\
    oq = None /\ questions d' = [] /\ sessions d' = [sample_session] /\
    (select [] 7 python = None ->
       exists r, select (skills d') 7 python = Some r /\ current_difficulty_score r = Some 10).
Proof.
  do 2 eexists; split; [reflexivity|].
  apply (generate_question_rejected_reply 1 2 0 (mk_db [] [sample_session] []) _ 7 python (Some 1)
           (mk_generated "for (;;) {}"%string "What does this do?"%string
              "It loops"%string "An infinite loop with no body."%string ["loops"%string] 150));
    reflexivity.
Defined.

Lemma run_store_not_loading_witness :
  Store.isLoading (snd (Store.run_store
    [Store.AStartSession python (Store.Response true (Some (Some 1)));
     Store.AFetchNewQuestion python Store.NetworkError]
    (Store.mk_store None None false None))) = false.
Proof. apply StoreFacts.run_store_not_loading; reflexivity. Defined.

(** After a successful start of session 1, ending the session sends a
    request about session 1. *)
Lemma run_store_session_ids_witness :
  exists l, In (Store.AStartSession l (Store.Response true (Some (Some 1))))
    [Store.AStartSession python (Store.Response true (Some (Some 1)))].
Proof.
  apply (StoreFacts.run_store_session_ids
           [Store.AStartSession python (Store.Response true (Some (Some 1)))]
           (Store.AEndSession (Store.Response true None))
           (Store.mk_store None None false None) eq_refl (Store.PostSessionsEnd 1) 1).
  - simpl; left; reflexivity.
  - reflexivity.
Defined.
